(** * HackWave front end: the streaming-response ingestion engine of [App]

    A shallow embedding of the React component [App] (the file with
    [handleSubmit], [handleStreamEvent], [handleCancel] and
    [handleNewAnalysis]): the seven [useState] cells become the record
    [State], the parts of the browser the handlers talk to (pending
    [setTimeout] callbacks, the console, the clock behind [Date.now()])
    become the record [World], and every handler becomes a function on
    [World].

    Conventions of the model:
    - a JavaScript string is a [string]; one character of the model stands
      for one code unit;
    - the setter calls of a handler take effect in program order, the
      order in which React replays the queued updates;
    - a handler runs without interruption up to its next [await], so
      [handleSubmit] is cut at [await fetch(...)] and the read loop is
      given turn by turn;
    - [JSON.parse], the streaming [TextDecoder] and the clock are
      parameters of the handlers that use them. *)

From Stdlib Require Import Ascii String ZArith List Lia.
From stdpp Require Import base gmap strings list pretty.

Import ListNotations.
Local Open Scope string_scope.
Local Open Scope list_scope.

(** ** String primitives used by the handlers *)

(** The line terminator ['\n']. *)
Definition nl : string := String "010"%char "".

(** [s.startsWith(searchString)]. *)
Definition startsWith (searchString s : string) : bool :=
  String.prefix searchString s.

(** [s.slice(n)] for a non-negative [n]: the string without its first [n]
    code units. *)
Fixpoint slice (n : nat) (s : string) : string :=
  match n, s with
  | O, _ => s
  | S _, "" => ""
  | S n', String _ s' => slice n' s'
  end.

(** White space and line terminators stripped by [String.prototype.trim],
    among the code units below 256: TAB, LF, VT, FF, CR, SP and NBSP. *)
Definition is_white (c : ascii) : bool :=
  let n := nat_of_ascii c in
  (Nat.leb 9 n && Nat.leb n 13) || Nat.eqb n 32 || Nat.eqb n 160.

Fixpoint trimStart (s : string) : string :=
  match s with
  | "" => ""
  | String c s' => if is_white c then trimStart s' else s
  end.

Fixpoint trimEnd (s : string) : string :=
  match s with
  | "" => ""
  | String c s' =>
      match trimEnd s' with
      | "" => if is_white c then "" else String c ""
      | t => String c t
      end
  end.

(** [s.trim()]. *)
Definition trim (s : string) : string := trimEnd (trimStart s).

(** JavaScript truthiness of a string: only [""] is falsy. *)
Definition truthy (s : string) : bool :=
  match s with "" => false | _ => true end.

(** [a || b] on strings. *)
Definition or_else (a b : string) : string := if truthy a then a else b.

(** [s.split('\n')]: the first piece and the pieces after it.  The result
    of [split] is never empty, which the pair makes a matter of typing. *)
Fixpoint split_pieces (s : string) : string * list string :=
  match s with
  | "" => ("", [])
  | String c s' =>
      let (h, t) := split_pieces s' in
      if Ascii.eqb c "010" then ("", h :: t) else (String c h, t)
  end.

Definition split_nl (s : string) : list string :=
  let (h, t) := split_pieces s in h :: t.

(** [lines.pop()]: the removed last element (or [undefined], here [None])
    and the array it leaves behind. *)
Fixpoint pop (lines : list string) : option string * list string :=
  match lines with
  | [] => (None, [])
  | [x] => (Some x, [])
  | x :: rest => let (r, l) := pop rest in (r, x :: l)
  end.

(** ** Data model *)

(** The object shape of [Message.metadata] and of the [streamingMetadata]
    cell.  Every property is optional in the source; [final_answer] is
    declared on [streamingMetadata] only, and reaches a message through the
    spread [{...streamingMetadata, ...}]. *)
Record Metadata := mkMetadata {
  processing_time : option Z;
  query_type : option string;
  debate_category : option string;
  domain_analysis : option string;
  ux_analysis : option string;
  technical_analysis : option string;
  revenue_analysis : option string;
  moderator_aggregation : option string;
  debate_resolution : option string;
  final_answer : option string
}.

(** The object literal [{}]. *)
Definition emptyMetadata : Metadata :=
  mkMetadata None None None None None None None None None None.

Inductive MessageType := human | ai.

Module Message.
Record t := mk {
  type : MessageType;
  content : string;
  id : string;
  metadata : option Metadata
}.
End Message.

Module StreamEvent.
Record t := mk {
  type : string;
  content : string
}.
End StreamEvent.

(** [ProcessedEvent] of the activity timeline, as the literals of
    [timelineEvents] build it. *)
Record ProcessedEvent := mkProcessedEvent {
  title : string;
  data : string
}.

(** The [useState] cells of [App]. *)
Record State := mkState {
  messages : list Message.t;
  isLoading : bool;
  processedEventsTimeline : list ProcessedEvent;
  historicalActivities : gmap string (list ProcessedEvent);
  error : option string;
  currentStreamingMessage : string;
  streamingMetadata : Metadata
}.

(** The initial values handed to [useState]. *)
Definition initialState : State :=
  mkState [] false [] ∅ None "" emptyMetadata.

(** The browser around the component.
    - [timers]: callbacks registered with [setTimeout] that have not run
      yet, each with its delay in milliseconds and the entry it appends;
    - [console]: the lines written with [console.warn] and
      [console.error], oldest first;
    - [parsed]: the arguments [JSON.parse] has been called with, oldest
      first (an observation; no handler reads it);
    - [ticks]: how many times [Date.now()] has been read. *)
Record World := mkWorld {
  state : State;
  timers : list (nat * ProcessedEvent);
  console : list string;
  parsed : list string;
  ticks : nat
}.

Definition initialWorld : World := mkWorld initialState [] [] [] 0.

(** ** State setters *)

Definition setMessages (f : list Message.t -> list Message.t) (s : State) : State :=
  mkState (f (messages s)) (isLoading s) (processedEventsTimeline s)
          (historicalActivities s) (error s) (currentStreamingMessage s)
          (streamingMetadata s).

Definition setIsLoading (b : bool) (s : State) : State :=
  mkState (messages s) b (processedEventsTimeline s)
          (historicalActivities s) (error s) (currentStreamingMessage s)
          (streamingMetadata s).

Definition setProcessedEventsTimeline
    (f : list ProcessedEvent -> list ProcessedEvent) (s : State) : State :=
  mkState (messages s) (isLoading s) (f (processedEventsTimeline s))
          (historicalActivities s) (error s) (currentStreamingMessage s)
          (streamingMetadata s).

Definition setHistoricalActivities
    (f : gmap string (list ProcessedEvent) -> gmap string (list ProcessedEvent))
    (s : State) : State :=
  mkState (messages s) (isLoading s) (processedEventsTimeline s)
          (f (historicalActivities s)) (error s) (currentStreamingMessage s)
          (streamingMetadata s).

Definition setError (e : option string) (s : State) : State :=
  mkState (messages s) (isLoading s) (processedEventsTimeline s)
          (historicalActivities s) e (currentStreamingMessage s)
          (streamingMetadata s).

Definition setCurrentStreamingMessage (f : string -> string) (s : State) : State :=
  mkState (messages s) (isLoading s) (processedEventsTimeline s)
          (historicalActivities s) (error s) (f (currentStreamingMessage s))
          (streamingMetadata s).

Definition setStreamingMetadata (f : Metadata -> Metadata) (s : State) : State :=
  mkState (messages s) (isLoading s) (processedEventsTimeline s)
          (historicalActivities s) (error s) (currentStreamingMessage s)
          (f (streamingMetadata s)).

(** A setter call made by a handler running in world [w]. *)
Definition update (f : State -> State) (w : World) : World :=
  mkWorld (f (state w)) (timers w) (console w) (parsed w) (ticks w).

Definition setTimeout (entry : ProcessedEvent) (delay : nat) (w : World) : World :=
  mkWorld (state w) (timers w ++ [(delay, entry)]) (console w) (parsed w) (ticks w).

Definition console_warn (line : string) (w : World) : World :=
  mkWorld (state w) (timers w) (console w ++ [line]) (parsed w) (ticks w).

Definition console_error (line : string) (w : World) : World :=
  mkWorld (state w) (timers w) (console w ++ [line]) (parsed w) (ticks w).

Definition note_parse (payload : string) (w : World) : World :=
  mkWorld (state w) (timers w) (console w) (parsed w ++ [payload]) (ticks w).

Definition tick (w : World) : World :=
  mkWorld (state w) (timers w) (console w) (parsed w) (S (ticks w)).

(** Object spreads [{...prev, field: content}] of [handleStreamEvent]. *)
Definition with_domain_analysis (v : string) (m : Metadata) : Metadata :=
  mkMetadata (processing_time m) (query_type m) (debate_category m)
    (Some v) (ux_analysis m) (technical_analysis m) (revenue_analysis m)
    (moderator_aggregation m) (debate_resolution m) (final_answer m).

Definition with_ux_analysis (v : string) (m : Metadata) : Metadata :=
  mkMetadata (processing_time m) (query_type m) (debate_category m)
    (domain_analysis m) (Some v) (technical_analysis m) (revenue_analysis m)
    (moderator_aggregation m) (debate_resolution m) (final_answer m).

Definition with_technical_analysis (v : string) (m : Metadata) : Metadata :=
  mkMetadata (processing_time m) (query_type m) (debate_category m)
    (domain_analysis m) (ux_analysis m) (Some v) (revenue_analysis m)
    (moderator_aggregation m) (debate_resolution m) (final_answer m).

Definition with_revenue_analysis (v : string) (m : Metadata) : Metadata :=
  mkMetadata (processing_time m) (query_type m) (debate_category m)
    (domain_analysis m) (ux_analysis m) (technical_analysis m) (Some v)
    (moderator_aggregation m) (debate_resolution m) (final_answer m).

Definition with_moderator_aggregation (v : string) (m : Metadata) : Metadata :=
  mkMetadata (processing_time m) (query_type m) (debate_category m)
    (domain_analysis m) (ux_analysis m) (technical_analysis m)
    (revenue_analysis m) (Some v) (debate_resolution m) (final_answer m).

Definition with_final_answer (v : string) (m : Metadata) : Metadata :=
  mkMetadata (processing_time m) (query_type m) (debate_category m)
    (domain_analysis m) (ux_analysis m) (technical_analysis m)
    (revenue_analysis m) (moderator_aggregation m) (debate_resolution m)
    (Some v).

(** [{...m, processing_time: 0, query_type: "general"}]. *)
Definition with_derived_fields (m : Metadata) : Metadata :=
  mkMetadata (Some 0%Z) (Some "general") (debate_category m)
    (domain_analysis m) (ux_analysis m) (technical_analysis m)
    (revenue_analysis m) (moderator_aggregation m) (debate_resolution m)
    (final_answer m).

(** ** Closures

    [handleStreamEvent] reads three cells directly, as the constants
    [currentStreamingMessage], [streamingMetadata] and
    [processedEventsTimeline] of the render that created the callback, and
    changes cells only through setters.  The reads therefore see the values
    of that render, the setter updaters [prev => ...] see the current
    ones. *)
Record Closure := mkClosure {
  seen_currentStreamingMessage : string;
  seen_streamingMetadata : Metadata;
  seen_processedEventsTimeline : list ProcessedEvent
}.

(** The constants bound by a render of [App] at state [s]. *)
Definition render (s : State) : Closure :=
  mkClosure (currentStreamingMessage s) (streamingMetadata s)
            (processedEventsTimeline s).

(** [handleSubmit] is memoised with the dependency list [[apiUrl]], a
    constant, so the instance handed to the views is for ever the one the
    first render created.  The name [handleStreamEvent] in its body is the
    binding of that same render: the callback whose constants are the
    initial values of the cells. *)
Definition firstRender : Closure := render initialState.

(** The literal [timelineEvents] of [handleSubmit]. *)
Definition timelineEvents : list ProcessedEvent :=
  [ mkProcessedEvent "Query Classification"
      "Analyzing query type and routing to appropriate specialists...";
    mkProcessedEvent "Domain Expert Analysis"
      "Analyzing business logic and domain-specific requirements...";
    mkProcessedEvent "UX/UI Specialist Analysis"
      "Analyzing user experience and interface design requirements...";
    mkProcessedEvent "Technical Architect Analysis"
      "Analyzing technical architecture and implementation requirements...";
    mkProcessedEvent "Revenue Model Analyst Analysis"
      "Analyzing revenue models and monetization strategies...";
    mkProcessedEvent "Moderator Aggregation"
      "Consolidating feedback and resolving conflicts...";
    mkProcessedEvent "Final Answer Generation"
      "Generating comprehensive final answer..." ].

(** A value caught by [catch (err)]: an [Error] with its message, or
    something that is not an [Error]. *)
Inductive Thrown := ErrorObject (message : string) | OtherValue.

(** What [reader.read()] delivers over the life of a response: the chunks,
    then [done], or a rejection in place of [done]. *)
Record ByteSource := mkByteSource {
  chunks : list (list Byte.byte);
  failure : option Thrown
}.

(** The outcome of [fetch]: a rejection, or a response with its status and
    its body ([None] when [response.body] has no reader). *)
Inductive FetchResult :=
| Rejected (err : Thrown)
| Responded (status : N) (body : option ByteSource).

(** [response.ok]. *)
Definition ok (status : N) : bool := (200 <=? status)%N && (status <=? 299)%N.

(** The loop of [setTimeout] calls: entry [i] of the list after
    [i * 1000] milliseconds. *)
Fixpoint schedule (i : nat) (entries : list ProcessedEvent) (w : World) : World :=
  match entries with
  | [] => w
  | e :: rest => schedule (S i) rest (setTimeout e (i * 1000) w)
  end.

(** [handleCancel]. *)
Definition handleCancel (w : World) : World :=
  let w := update (setIsLoading false) w in
  let w := update (setProcessedEventsTimeline (fun _ => [])) w in
  let w := update (setError None) w in
  let w := update (setCurrentStreamingMessage (fun _ => "")) w in
  update (setStreamingMetadata (fun _ => emptyMetadata)) w.

(** [handleNewAnalysis]. *)
Definition handleNewAnalysis (w : World) : World :=
  let w := update (setMessages (fun _ => [])) w in
  let w := update (setProcessedEventsTimeline (fun _ => [])) w in
  let w := update (setHistoricalActivities (fun _ => ∅)) w in
  let w := update (setError None) w in
  let w := update (setCurrentStreamingMessage (fun _ => "")) w in
  let w := update (setStreamingMetadata (fun _ => emptyMetadata)) w in
  update (setIsLoading false) w.

(** A pending [setTimeout] callback runs: it leaves the queue and appends
    its entry with [setProcessedEventsTimeline(prev => [...prev, entry])].
    Nothing in the component calls [clearTimeout], and the callback tests
    nothing before it appends.  [k] is the position of the callback in the
    queue; the delays decide which positions can be next. *)
Definition fire (k : nat) (w : World) : World :=
  match timers w !! k with
  | None => w
  | Some (_, entry) =>
      update (setProcessedEventsTimeline (fun prev => prev ++ [entry]))
        (mkWorld (state w) (delete k (timers w)) (console w) (parsed w) (ticks w))
  end.

Section App.

(** [Date.now()]: the [n]-th reading of the clock, in milliseconds. *)
Variable clock : nat -> Z.

(** [JSON.parse] at the declared type of its use, [StreamEvent].  [None]
    is an exception raised inside the [try] of the line loop: the
    [SyntaxError] of [JSON.parse], or the [TypeError] of reading [type]
    off a decoded [null]. *)
Variable JSON_parse : string -> option StreamEvent.t.

(** [TextDecoder] in streaming mode: a state machine over the bytes, each
    byte yielding the code units it completes. *)
Variable dstate : Type.
Variable dinit : dstate.
Variable decode_byte : dstate -> Byte.byte -> string * dstate.

Definition Date_now (w : World) : Z * World := (clock (ticks w), tick w).

(** The two statements shared by the six analysis-section cases. *)
Definition section_case (store : string -> Metadata -> Metadata)
    (heading : string) (content : string) (w : World) : World :=
  let w := update (setStreamingMetadata (fun prev => store content prev)) w in
  update (setCurrentStreamingMessage
            (fun prev => prev +:+ (nl +:+ nl +:+ heading +:+ nl) +:+ content)) w.

(** [handleStreamEvent], as created by a render with constants [c]. *)
Definition handleStreamEvent (c : Closure) (event : StreamEvent.t) (w : World) : World :=
  let type := StreamEvent.type event in
  let content := StreamEvent.content event in
  if String.eqb type "domain_expert" then
    section_case with_domain_analysis "**Domain Expert Analysis:**" content w
  else if String.eqb type "ux_ui_specialist" then
    section_case with_ux_analysis "**UX/UI Specialist Analysis:**" content w
  else if String.eqb type "technical_architect" then
    section_case with_technical_analysis "**Technical Architect Analysis:**" content w
  else if String.eqb type "revenue_model_analyst" then
    section_case with_revenue_analysis "**Revenue Model Analyst Analysis:**" content w
  else if String.eqb type "moderator_aggregation" then
    section_case with_moderator_aggregation "**Moderator Aggregation:**" content w
  else if String.eqb type "final_answer" then
    section_case with_final_answer "**Final Answer:**" content w
  else if String.eqb type "message" then
    update (setCurrentStreamingMessage (fun _ => content)) w
  else if String.eqb type "complete" then
    let text := or_else (seen_currentStreamingMessage c) "Analysis completed" in
    let (now, w) := Date_now w in
    let aiMessage :=
      Message.mk ai text (pretty (now + 1)%Z)
        (Some (with_derived_fields (seen_streamingMetadata c))) in
    let w := update (setMessages (fun prev => prev ++ [aiMessage])) w in
    update (setHistoricalActivities
              (fun prev => <[Message.id aiMessage := seen_processedEventsTimeline c]> prev)) w
  else if String.eqb type "error" then
    update (setError (Some content)) w
  else w.

(** [for (const x of xs) body(x)]. *)
Definition for_each {A} (body : A -> World -> World) (xs : list A) (w : World) : World :=
  fold_left (fun w x => body x w) xs w.

(** The body of [for (const line of lines)]. *)
Definition process_line (c : Closure) (line : string) (w : World) : World :=
  if startsWith "data: " line then
    let payload := slice 6 line in
    let w := note_parse payload w in
    match JSON_parse payload with
    | Some eventData => handleStreamEvent c eventData w
    | None => console_warn ("Failed to parse SSE event: " +:+ line) w
    end
  else w.

(** [decoder.decode(value, { stream: true })]. *)
Fixpoint TextDecoder_decode (d : dstate) (value : list Byte.byte) : string * dstate :=
  match value with
  | [] => ("", d)
  | b :: rest =>
      let (s, d') := decode_byte d b in
      let (t, d'') := TextDecoder_decode d' rest in
      (s +:+ t, d'')
  end.

(** The locals of the read loop. *)
Record Reader := mkReader {
  decoder : dstate;
  buffer : string
}.

Definition newReader : Reader := mkReader dinit "".

(** One turn of [while (true)] in which [read()] delivered [value]. *)
Definition read_chunk (c : Closure) (value : list Byte.byte)
    (rw : Reader * World) : Reader * World :=
  let (r, w) := rw in
  let (text, d) := TextDecoder_decode (decoder r) value in
  let buffer := buffer r +:+ text in
  let lines := split_nl buffer in
  let (last, lines) := pop lines in
  let buffer := match last with Some s => or_else s "" | None => "" end in
  (mkReader d buffer, for_each (process_line c) lines w).

(** The read loop up to [done] (or to the rejection of [read()]). *)
Definition read_loop (c : Closure) (values : list (list Byte.byte))
    (rw : Reader * World) : Reader * World :=
  fold_left (fun rw value => read_chunk c value rw) values rw.

(** The handler of [catch (err)] in [handleSubmit]. *)
Definition catch_streaming (err : Thrown) (w : World) : World :=
  let w := console_error "Streaming error:" w in
  update (setError (Some match err with
                         | ErrorObject message => message
                         | OtherValue => "An error occurred"
                         end)) w.

(** [handleSubmit] up to its first [await]: the guard, the setters, the
    user message and the timers. *)
Definition handleSubmit_sync (submittedInputValue effort : string) (w : World) : World :=
  if negb (truthy (trim submittedInputValue)) then w else
  let w := update (setProcessedEventsTimeline (fun _ => [])) w in
  let w := update (setIsLoading true) w in
  let w := update (setError None) w in
  let w := update (setCurrentStreamingMessage (fun _ => "")) w in
  let w := update (setStreamingMetadata (fun _ => emptyMetadata)) w in
  let (now, w) := Date_now w in
  let userMessage := Message.mk human submittedInputValue (pretty now) None in
  let w := update (setMessages (fun prev => prev ++ [userMessage])) w in
  schedule 0 timelineEvents w.

(** [handleSubmit] from [await fetch(...)] on, run against the outcome
    [result] of the request, with the event callback of [c]. *)
Definition handleSubmit_await (c : Closure) (result : FetchResult) (w : World) : World :=
  let w :=
    match result with
    | Rejected err => catch_streaming err w
    | Responded status body =>
        if negb (ok status) then
          catch_streaming
            (ErrorObject ("HTTP error! status: " +:+ pretty status)) w
        else
          match body with
          | None => catch_streaming (ErrorObject "No response body reader available") w
          | Some source =>
              let w := snd (read_loop c (chunks source) (newReader, w)) in
              match failure source with
              | None => w
              | Some err => catch_streaming err w
              end
          end
    end in
  update (setIsLoading false) w.

(** A whole call of [handleSubmit], nothing else running in between. *)
Definition handleSubmit (submittedInputValue effort : string)
    (result : FetchResult) (w : World) : World :=
  if negb (truthy (trim submittedInputValue)) then w
  else handleSubmit_await firstRender result
         (handleSubmit_sync submittedInputValue effort w).

End App.

(** ** Vocabulary of the properties *)

(** A string made of white space only (the empty string included). *)
Fixpoint whitespace_only (s : string) : bool :=
  match s with
  | "" => true
  | String c s' => is_white c && whitespace_only s'
  end.

(** What one turn of the read loop takes from a buffer: the lines it hands
    to the [for] loop and the piece it keeps. *)
Definition complete_lines (text : string) : list string :=
  snd (pop (split_nl text)).

Definition partial_line (text : string) : string :=
  match fst (pop (split_nl text)) with
  | Some s => s
  | None => ""
  end.

(** A text without a line terminator. *)
Fixpoint no_newline (s : string) : bool :=
  match s with
  | "" => true
  | String c s' => negb (Ascii.eqb c "010") && no_newline s'
  end.

(** The whole text a streaming decoder delivers for the bytes [bs], from
    state [d]. *)
Definition decoded (dstate : Type)
    (decode_byte : dstate -> Byte.byte -> string * dstate)
    (d : dstate) (bs : list Byte.byte) : string :=
  fst (TextDecoder_decode dstate decode_byte d bs).

(** Two worlds that no handler can tell apart: they differ at most in what
    was written to the console and in the record of [JSON.parse] calls. *)
Definition same_session (w1 w2 : World) : Prop :=
  state w1 = state w2 /\ timers w1 = timers w2 /\ ticks w1 = ticks w2.

(** The six analysis sections, with the [type] of their event, the heading
    of their block and the property of the metadata object they fill. *)
Inductive SectionTag :=
| domain_expert | ux_ui_specialist | technical_architect
| revenue_model_analyst | moderator | final.

Definition tag_name (t : SectionTag) : string :=
  match t with
  | domain_expert => "domain_expert"
  | ux_ui_specialist => "ux_ui_specialist"
  | technical_architect => "technical_architect"
  | revenue_model_analyst => "revenue_model_analyst"
  | moderator => "moderator_aggregation"
  | final => "final_answer"
  end.

Definition heading (t : SectionTag) : string :=
  match t with
  | domain_expert => "**Domain Expert Analysis:**"
  | ux_ui_specialist => "**UX/UI Specialist Analysis:**"
  | technical_architect => "**Technical Architect Analysis:**"
  | revenue_model_analyst => "**Revenue Model Analyst Analysis:**"
  | moderator => "**Moderator Aggregation:**"
  | final => "**Final Answer:**"
  end.

Definition stored (t : SectionTag) (m : Metadata) : option string :=
  match t with
  | domain_expert => domain_analysis m
  | ux_ui_specialist => ux_analysis m
  | technical_architect => technical_analysis m
  | revenue_model_analyst => revenue_analysis m
  | moderator => moderator_aggregation m
  | final => final_answer m
  end.

(** The spread that stores the payload of a section. *)
Definition store (t : SectionTag) : string -> Metadata -> Metadata :=
  match t with
  | domain_expert => with_domain_analysis
  | ux_ui_specialist => with_ux_analysis
  | technical_architect => with_technical_analysis
  | revenue_model_analyst => with_revenue_analysis
  | moderator => with_moderator_aggregation
  | final => with_final_answer
  end.

Definition tag_eqb (a b : SectionTag) : bool :=
  String.eqb (tag_name a) (tag_name b).

Definition section_event (e : SectionTag * string) : StreamEvent.t :=
  StreamEvent.mk (tag_name (fst e)) (snd e).

(** The labeled block of one section event. *)
Definition block (e : SectionTag * string) : string :=
  (nl +:+ nl +:+ heading (fst e) +:+ nl) +:+ snd e.

Definition blocks (es : list (SectionTag * string)) : string :=
  fold_right (fun e rest => block e +:+ rest) "" es.

(** The payload of the last event of tag [t], if there is one. *)
Fixpoint last_payload (t : SectionTag) (es : list (SectionTag * string)) : option string :=
  match es with
  | [] => None
  | (t', p) :: rest =>
      match last_payload t rest with
      | Some q => Some q
      | None => if tag_eqb t t' then Some p else None
      end
  end.

(** Operations that create Turns: a submission, and a [complete] event
    reaching the callback the stream uses. *)
Inductive Operation :=
| op_submit (text effort : string)
| op_complete (content : string).

Definition apply_operation (clock : nat -> Z) (op : Operation) (w : World) : World :=
  match op with
  | op_submit text effort => handleSubmit_sync clock text effort w
  | op_complete content =>
      handleStreamEvent clock firstRender (StreamEvent.mk "complete" content) w
  end.

Definition run_operations (clock : nat -> Z) (ops : list Operation) (w : World) : World :=
  fold_left (fun w op => apply_operation clock op w) ops w.

Definition turn_ids (w : World) : list string :=
  map Message.id (messages (state w)).

(** Every id so far is the decimal form of a number below the next
    reading of the clock, and no id occurs twice. *)
Definition ids_below_clock (clock : nat -> Z) (w : World) : Prop :=
  NoDup (turn_ids w)
  /\ forall i : string, i ∈ turn_ids w ->
       exists z : Z, i = pretty z /\ (z < clock (ticks w))%Z.

(** ** Sample surroundings, for the examples

    A clock that advances by a fixed step, a decoder for one-byte
    characters, and a reader of the exact shape
    [{"type":"...","content":"..."}] without escapes. *)
Module Sample.

Definition clock_from (t0 step : Z) (n : nat) : Z := (t0 + step * Z.of_nat n)%Z.

Definition decode_byte (d : unit) (b : Byte.byte) : string * unit :=
  (String (ascii_of_byte b) "", d).

Fixpoint strip_prefix (p s : string) : option string :=
  match p, s with
  | "", _ => Some s
  | String a p', String b s' => if Ascii.eqb a b then strip_prefix p' s' else None
  | String _ _, "" => None
  end.

(** The text up to the next double quote, and the text after it. *)
Fixpoint until_quote (s : string) : option (string * string) :=
  match s with
  | "" => None
  | String c s' =>
      if Ascii.eqb c "034" then Some ("", s')
      else match until_quote s' with
           | Some (v, rest) => Some (String c v, rest)
           | None => None
           end
  end.

Definition quote : string := String "034"%char "".

Definition JSON_parse (s : string) : option StreamEvent.t :=
  match strip_prefix ("{" +:+ quote +:+ "type" +:+ quote +:+ ":" +:+ quote) s with
  | None => None
  | Some s1 =>
      match until_quote s1 with
      | None => None
      | Some (type, s2) =>
          match strip_prefix ("," +:+ quote +:+ "content" +:+ quote +:+ ":" +:+ quote) s2 with
          | None => None
          | Some s3 =>
              match until_quote s3 with
              | Some (content, "}") => Some (StreamEvent.mk type content)
              | _ => None
              end
          end
      end
  end.

(** The line carrying an event, and the frame the server writes for it:
    the line and its terminator. *)
Definition line (type content : string) : string :=
  "data: {" +:+ quote +:+ "type" +:+ quote +:+ ":" +:+ quote +:+ type +:+ quote
    +:+ "," +:+ quote +:+ "content" +:+ quote +:+ ":" +:+ quote +:+ content
    +:+ quote +:+ "}".

Definition frame (type content : string) : string := line type content +:+ nl.

Definition bytes (s : string) : list Byte.byte := list_byte_of_string s.

(** The frame of [message "hi"], cut before its closing quote. *)
Definition first_half : string :=
  "data: {" +:+ quote +:+ "type" +:+ quote +:+ ":" +:+ quote +:+ "message"
    +:+ quote +:+ "," +:+ quote +:+ "content" +:+ quote +:+ ":" +:+ quote +:+ "hi".

Definition second_half : string := quote +:+ "}" +:+ nl.

(** Readings 1000, 1005, 1010, ... *)
Definition clock : nat -> Z := clock_from 1000 5.

(** A clock read three times within two milliseconds: once at 1000,
    then twice at 1500. *)
Definition coarse_clock (n : nat) : Z :=
  match n with O => 1000%Z | _ => 1500%Z end.

(** The session right after the first submission. *)
Definition submitted : World :=
  handleSubmit_sync clock "Build a todo app" "general" initialWorld.

(** The response of the scenario: one section, then [complete]. *)
Definition one_section : list string :=
  [frame "domain_expert" "Needs CRUD"; frame "complete" ""].

(** A whole request against a response that delivers [chunks] and ends. *)
Definition request (chunks : list string) : World :=
  handleSubmit clock JSON_parse unit tt decode_byte
    "Build a todo app" "general"
    (Responded 200 (Some (mkByteSource (map bytes chunks) None)))
    initialWorld.

End Sample.

(** ** The view and the steps of a session *)

(** What [App] returns: the welcome screen while there is no message, the
    error screen while [error] is truthy, the chat view otherwise. *)
Inductive View :=
| WelcomeScreen
| ErrorScreen (message : string)
| ChatMessagesView.

Definition view (s : State) : View :=
  match messages s with
  | [] => WelcomeScreen
  | _ :: _ =>
      match error s with
      | Some e => if truthy e then ErrorScreen e else ChatMessagesView
      | None => ChatMessagesView
      end
  end.

(** The uninterrupted pieces the handlers are made of: the synchronous
    part of a submission, one turn of the line loop (with the callback of
    some render), the [catch] and the [finally] of [handleSubmit], the two
    buttons, and a timer callback. *)
Inductive Action :=
| do_submit (text effort : string)
| do_line (c : Closure) (line : string)
| do_catch (err : Thrown)
| do_finally
| do_cancel
| do_new_analysis
| do_fire (k : nat).

Definition perform (clock : nat -> Z) (JSON_parse : string -> option StreamEvent.t)
    (a : Action) (w : World) : World :=
  match a with
  | do_submit text effort => handleSubmit_sync clock text effort w
  | do_line c line => process_line clock JSON_parse c line w
  | do_catch err => catch_streaming err w
  | do_finally => update (setIsLoading false) w
  | do_cancel => handleCancel w
  | do_new_analysis => handleNewAnalysis w
  | do_fire k => fire k w
  end.

Definition run_actions (clock : nat -> Z) (JSON_parse : string -> option StreamEvent.t)
    (acts : list Action) (w : World) : World :=
  fold_left (fun w a => perform clock JSON_parse a w) acts w.

(** The steps of [handleSubmit] after its first [await], for a given
    outcome of the request. *)
Definition await_actions (dstate : Type) (dinit : dstate)
    (decode_byte : dstate -> Byte.byte -> string * dstate)
    (c : Closure) (result : FetchResult) : list Action :=
  match result with
  | Rejected err => [do_catch err]
  | Responded status body =>
      if negb (ok status) then
        [do_catch (ErrorObject ("HTTP error! status: " +:+ pretty status))]
      else
        match body with
        | None => [do_catch (ErrorObject "No response body reader available")]
        | Some source =>
            map (do_line c)
              (complete_lines (decoded dstate decode_byte dinit (concat (chunks source))))
            ++ match failure source with
               | Some err => [do_catch err]
               | None => []
               end
        end
  end ++ [do_finally].

(** The [type]s with a [case] in [handleStreamEvent]. *)
Definition event_types : list string :=
  ["domain_expert"; "ux_ui_specialist"; "technical_architect";
   "revenue_model_analyst"; "moderator_aggregation"; "final_answer";
   "message"; "complete"; "error"].

Definition is_complete (event : StreamEvent.t) : bool :=
  String.eqb (StreamEvent.type event) "complete".

Definition count_complete (events : list StreamEvent.t) : nat :=
  length (List.filter is_complete events).

(** The payloads of the marked lines, and the marked lines the parser
    rejects. *)
Definition payloads (lines : list string) : list string :=
  map (slice 6) (List.filter (startsWith "data: ") lines).

Definition undecodable (JSON_parse : string -> option StreamEvent.t)
    (lines : list string) : list string :=
  List.filter
    (fun l => startsWith "data: " l
              && match JSON_parse (slice 6 l) with Some _ => false | None => true end)
    lines.

(** Lines put back together, each with its terminator, before [rest]. *)
Definition join_lines (lines : list string) (rest : string) : string :=
  fold_right (fun l acc => l +:+ nl +:+ acc) rest lines.

(** The first [n] callbacks of the queue run, one after the other. *)
Fixpoint fire_head (n : nat) (w : World) : World :=
  match n with
  | O => w
  | S n' => fire_head n' (fire 0 w)
  end.

Definition is_ai (m : Message.t) : bool :=
  match Message.type m with ai => true | human => false end.

Definition ai_ids (w : World) : list string :=
  map Message.id (List.filter is_ai (messages (state w))).

Definition human_ids (w : World) : list string :=
  map Message.id (List.filter (fun m => negb (is_ai m)) (messages (state w))).

(** A Turn as the handlers build them: a user Turn holds a text that is
    not blank and no metadata; an assistant Turn holds a text that is not
    empty and the two derived fields. *)
Definition well_formed_turn (m : Message.t) : Prop :=
  match Message.type m with
  | human =>
      Message.metadata m = None /\ whitespace_only (Message.content m) = false
  | ai =>
      Message.content m <> ""
      /\ exists md : Metadata,
           Message.metadata m = Some md
           /\ processing_time md = Some 0%Z /\ query_type md = Some "general"
  end.

(** Every key of the historical map is the id of an assistant Turn of the
    list. *)
Definition history_keyed_by_turns (w : World) : Prop :=
  forall k : string,
    is_Some (historicalActivities (state w) !! k) -> In k (ai_ids w).


(** User ids are decimal forms of numbers below the next reading of the
    clock, assistant ids of numbers not above it, and no id occurs twice
    among the Turns of one role. *)
Definition role_ids_below_clock (clock : nat -> Z) (w : World) : Prop :=
  NoDup (human_ids w) /\ NoDup (ai_ids w)
  /\ (forall i : string, i ∈ human_ids w ->
        exists z : Z, i = pretty z /\ (z < clock (ticks w))%Z)
  /\ (forall i : string, i ∈ ai_ids w ->
        exists z : Z, i = pretty z /\ (z <= clock (ticks w))%Z).

(** The four ways a step can change the Turns, the historical map and
    the clock: not at all; by emptying both; by appending a user Turn; by
    appending an assistant Turn and filing an entry under its id. *)
Inductive TurnsChange (clock : nat -> Z) (w w' : World) : Prop :=
| turns_kept :
    messages (state w') = messages (state w) ->
    historicalActivities (state w') = historicalActivities (state w) ->
    ticks w' = ticks w ->
    TurnsChange clock w w'
| turns_emptied :
    messages (state w') = [] ->
    historicalActivities (state w') = ∅ ->
    ticks w' = ticks w ->
    TurnsChange clock w w'
| turns_user (text : string) :
    whitespace_only text = false ->
    messages (state w') =
      messages (state w) ++ [Message.mk human text (pretty (clock (ticks w))) None] ->
    historicalActivities (state w') = historicalActivities (state w) ->
    ticks w' = S (ticks w) ->
    TurnsChange clock w w'
| turns_assistant (c : Closure) :
    messages (state w') =
      messages (state w)
        ++ [Message.mk ai
              (or_else (seen_currentStreamingMessage c) "Analysis completed")
              (pretty (clock (ticks w) + 1)%Z)
              (Some (with_derived_fields (seen_streamingMetadata c)))] ->
    historicalActivities (state w') =
      <[pretty (clock (ticks w) + 1)%Z := seen_processedEventsTimeline c]>
        (historicalActivities (state w)) ->
    ticks w' = S (ticks w) ->
    TurnsChange clock w w'.

(** ** The protocol in its own words

    A frame is a line closed by a line terminator.  Reading the text one
    character at a time: a terminator closes the line gathered so far, any
    other character joins it; what is gathered when the text ends is not a
    line. *)
Fixpoint scan_lines (current text : string) : list string :=
  match text with
  | "" => []
  | String c text' =>
      if Ascii.eqb c "010" then current :: scan_lines "" text'
      else scan_lines (current +:+ String c "") text'
  end.

Fixpoint scan_rest (current text : string) : string :=
  match text with
  | "" => current
  | String c text' =>
      if Ascii.eqb c "010" then scan_rest "" text'
      else scan_rest (current +:+ String c "") text'
  end.

Definition terminated_lines (text : string) : list string := scan_lines "" text.

Definition unterminated_rest (text : string) : string := scan_rest "" text.

(** The events of some lines: a line is an event when it begins with the
    marker and what follows the marker decodes. *)
Fixpoint events_of (JSON_parse : string -> option StreamEvent.t)
    (lines : list string) : list StreamEvent.t :=
  match lines with
  | [] => []
  | l :: rest =>
      if startsWith "data: " l then
        match JSON_parse (slice 6 l) with
        | Some event => event :: events_of JSON_parse rest
        | None => events_of JSON_parse rest
        end
      else events_of JSON_parse rest
  end.



(** * Properties *)

(** ** Strings *)

Lemma append_cons (x : ascii) (a b : string) :
  String x a +:+ b = String x (a +:+ b).
Proof. reflexivity. Qed.

Lemma append_assoc (a b c : string) : (a +:+ b) +:+ c = a +:+ (b +:+ c).
Proof.
  induction a as [|x a IH]; [reflexivity|].
  rewrite !append_cons. now f_equal.
Qed.

Lemma append_empty_r (a : string) : a +:+ "" = a.
Proof.
  induction a as [|x a IH]; [reflexivity|].
  rewrite append_cons. now f_equal.
Qed.

Lemma or_else_empty (s : string) : or_else s "" = s.
Proof. now destruct s. Qed.

Lemma trimEnd_empty (s : string) : trimEnd s = "" <-> whitespace_only s = true.
Proof.
  induction s as [|c s IH]; simpl; [tauto|].
  destruct (trimEnd s) eqn:E.
  - destruct (is_white c); simpl.
    + split; intros _; [now apply IH | reflexivity].
    + split; discriminate.
  - split; [discriminate|].
    intros H. apply andb_prop in H as [_ H]. apply IH in H. discriminate.
Qed.

Lemma whitespace_only_trimStart (s : string) :
  whitespace_only (trimStart s) = whitespace_only s.
Proof.
  induction s as [|c s IH]; simpl; [reflexivity|].
  destruct (is_white c) eqn:E; simpl; [exact IH | now rewrite E].
Qed.

(** The guard [!submittedInputValue.trim()] holds exactly for the strings
    of white space. *)
Lemma blank_guard (s : string) : negb (truthy (trim s)) = whitespace_only s.
Proof.
  unfold trim. rewrite <- (whitespace_only_trimStart s).
  destruct (whitespace_only (trimStart s)) eqn:E.
  - apply trimEnd_empty in E. now rewrite E.
  - destruct (trimEnd (trimStart s)) eqn:T; [|reflexivity].
    apply trimEnd_empty in T. congruence.
Qed.

Lemma pop_cons2 (x y : string) (l : list string) :
  pop (x :: y :: l) = (fst (pop (y :: l)), x :: snd (pop (y :: l))).
Proof. simpl. now destruct (pop l), l. Qed.

Lemma lines_newline (s : string) :
  complete_lines (String "010" s) = "" :: complete_lines s
  /\ partial_line (String "010" s) = partial_line s.
Proof.
  unfold complete_lines, partial_line, split_nl. simpl.
  destruct (split_pieces s) as [h t]. rewrite pop_cons2. now simpl.
Qed.

Lemma lines_char (c : ascii) (s : string) :
  Ascii.eqb c "010" = false ->
  complete_lines (String c s) =
    match complete_lines s with [] => [] | h :: l => String c h :: l end
  /\ partial_line (String c s) =
    match complete_lines s with
    | [] => String c (partial_line s)
    | _ => partial_line s
    end.
Proof.
  intros Hc. unfold complete_lines, partial_line, split_nl. simpl.
  destruct (split_pieces s) as [h t]. rewrite Hc.
  destruct t as [|y t]; [now simpl|].
  rewrite !pop_cons2. now simpl.
Qed.

(** The loop invariant of the frame decoder: cutting a text in two, taking
    the lines of the first part and prepending what is left of it to the
    second, yields the lines of the whole. *)
Lemma lines_append (a b : string) :
  complete_lines (a +:+ b) =
    complete_lines a ++ complete_lines (partial_line a +:+ b)
  /\ partial_line (a +:+ b) = partial_line (partial_line a +:+ b).
Proof.
  induction a as [|c a [IHl IHp]]; [now split|].
  rewrite append_cons.
  destruct (Ascii.eqb c "010") eqn:Hc.
  - apply Ascii.eqb_eq in Hc; subst c.
    destruct (lines_newline (a +:+ b)) as [-> ->].
    destruct (lines_newline a) as [-> ->].
    rewrite IHl, IHp. now split.
  - destruct (lines_char c (a +:+ b) Hc) as [-> ->].
    destruct (lines_char c a Hc) as [-> ->].
    rewrite IHl. destruct (complete_lines a) as [|h l]; simpl.
    + rewrite append_cons.
      destruct (lines_char c (partial_line a +:+ b) Hc) as [-> ->].
      now rewrite IHp.
    + now split.
Qed.

Lemma lines_no_newline (s : string) :
  no_newline s = true -> complete_lines s = [] /\ partial_line s = s.
Proof.
  induction s as [|c s IH]; [now simpl|].
  simpl. intros H. apply andb_prop in H as [Hc Hs].
  apply Bool.negb_true_iff in Hc.
  destruct (lines_char c s Hc) as [-> ->].
  destruct (IH Hs) as [-> ->]. now split.
Qed.

Lemma partial_line_no_newline (s : string) : no_newline (partial_line s) = true.
Proof.
  induction s as [|c s IH]; [reflexivity|].
  destruct (Ascii.eqb c "010") eqn:Hc.
  - apply Ascii.eqb_eq in Hc; subst c.
    now destruct (lines_newline s) as [_ ->].
  - destruct (lines_char c s Hc) as [_ ->].
    destruct (complete_lines s); [|exact IH].
    simpl. now rewrite Hc, IH.
Qed.

(** An unterminated tail adds no line. *)
Lemma lines_unterminated_tail (text tail : string) :
  no_newline tail = true ->
  complete_lines (text +:+ tail) = complete_lines text.
Proof.
  intros H. destruct (lines_append text tail) as [-> _].
  assert (Hn : no_newline (partial_line text +:+ tail) = true).
  { generalize (partial_line_no_newline text).
    induction (partial_line text) as [|c p IH]; [now intros _|].
    rewrite append_cons. simpl.
    intros Hp. apply andb_prop in Hp as [-> Hp]. simpl. now apply IH. }
  destruct (lines_no_newline _ Hn) as [-> _]. apply app_nil_r.
Qed.

(** ** The read loop *)

Section ReadLoop.

Variable clock : nat -> Z.
Variable JSON_parse : string -> option StreamEvent.t.
Variable dstate : Type.
Variable dinit : dstate.
Variable decode_byte : dstate -> Byte.byte -> string * dstate.

Local Abbreviation decode := (TextDecoder_decode dstate decode_byte).
Local Abbreviation line_body := (process_line clock JSON_parse).
Local Abbreviation loop := (read_loop clock JSON_parse dstate decode_byte).
Local Abbreviation turn := (read_chunk clock JSON_parse dstate decode_byte).

Lemma decode_app (d : dstate) (v1 v2 : list Byte.byte) :
  decode d (v1 ++ v2) =
    (fst (decode d v1) +:+ fst (decode (snd (decode d v1)) v2),
     snd (decode (snd (decode d v1)) v2)).
Proof.
  revert d. induction v1 as [|b v1 IH]; intros d; simpl.
  - now destruct (decode d v2).
  - destruct (decode_byte d b) as [s d1]. rewrite IH.
    destruct (decode d1 v1) as [t1 d2]; simpl.
    now rewrite append_assoc.
Qed.

Lemma for_each_cons {A} (body : A -> World -> World) (x : A) (xs : list A)
    (w : World) :
  for_each body (x :: xs) w = for_each body xs (body x w).
Proof. reflexivity. Qed.

Lemma for_each_app {A} (body : A -> World -> World) (xs ys : list A) (w : World) :
  for_each body (xs ++ ys) w = for_each body ys (for_each body xs w).
Proof. apply fold_left_app. Qed.

(** One turn of the loop hands the complete lines of [buffer + text] to
    the line body and keeps the unterminated rest. *)
Lemma read_chunk_lines (c : Closure) (value : list Byte.byte)
    (r : Reader dstate) (w : World) :
  turn c value (r, w) =
    (mkReader dstate (snd (decode (decoder dstate r) value))
       (partial_line (buffer dstate r +:+ decoded dstate decode_byte (decoder dstate r) value)),
     for_each (line_body c)
       (complete_lines (buffer dstate r +:+ decoded dstate decode_byte (decoder dstate r) value)) w).
Proof.
  unfold read_chunk, decoded, complete_lines, partial_line.
  destruct (decode (decoder dstate r) value) as [text d]; simpl.
  destruct (pop (split_nl (buffer dstate r +:+ text))) as [[s|] lines]; simpl;
    [now rewrite or_else_empty | reflexivity].
Qed.

Lemma read_loop_cons (c : Closure) (v : list Byte.byte)
    (values : list (list Byte.byte)) (rw : Reader dstate * World) :
  loop c (v :: values) rw = loop c values (turn c v rw).
Proof. reflexivity. Qed.

(** The loop over any sequence of chunks, from a buffer that holds no
    line terminator. *)
Lemma read_loop_lines (c : Closure) (values : list (list Byte.byte))
    (r : Reader dstate) (w : World) :
  no_newline (buffer dstate r) = true ->
  loop c values (r, w) =
    (mkReader dstate (snd (decode (decoder dstate r) (concat values)))
       (partial_line (buffer dstate r +:+ decoded dstate decode_byte (decoder dstate r) (concat values))),
     for_each (line_body c)
       (complete_lines (buffer dstate r +:+ decoded dstate decode_byte (decoder dstate r) (concat values))) w).
Proof.
  revert r w. induction values as [|v values IH]; intros [d b] w Hb.
  - simpl in *. unfold decoded; simpl. rewrite append_empty_r.
    now destruct (lines_no_newline b Hb) as [-> ->].
  - rewrite read_loop_cons, read_chunk_lines.
    rewrite IH by apply partial_line_no_newline.
    simpl. unfold decoded. rewrite decode_app. simpl.
    set (t1 := fst (decode d v)).
    set (t2 := fst (decode (snd (decode d v)) (concat values))).
    rewrite <- append_assoc.
    destruct (lines_append (b +:+ t1) t2) as [-> ->].
    now rewrite for_each_app.
Qed.

End ReadLoop.

(** ** Control actions *)

Lemma state_schedule (i : nat) (entries : list ProcessedEvent) (w : World) :
  state (schedule i entries w) = state w
  /\ ticks (schedule i entries w) = ticks w
  /\ timers (schedule i entries w) =
       timers w ++ imap (fun j e => ((i + j) * 1000, e)) entries.
Proof.
  revert i w. induction entries as [|e entries IH]; intros i w;
    cbn [schedule imap].
  - now rewrite app_nil_r.
  - destruct (IH (S i) (setTimeout e (i * 1000) w)) as (-> & -> & ->).
    cbn [setTimeout state ticks timers]. rewrite <- app_assoc.
    repeat split. cbn [app]. rewrite Nat.add_0_r. do 2 f_equal.
    apply imap_ext. intros j x _. unfold compose.
    now replace (S i + j) with (i + S j) by lia.
Qed.

(** C6.  [handleCancel] sets the in-flight flag to false, empties the live
    timeline, the error and the streaming text and metadata, and leaves
    the historical timeline map and the list of Turns as they were. *)
Theorem cancel_clears_request (w : World) :
  isLoading (state (handleCancel w)) = false
  /\ processedEventsTimeline (state (handleCancel w)) = []
  /\ error (state (handleCancel w)) = None
  /\ currentStreamingMessage (state (handleCancel w)) = ""
  /\ streamingMetadata (state (handleCancel w)) = emptyMetadata
  /\ historicalActivities (state (handleCancel w)) = historicalActivities (state w)
  /\ messages (state (handleCancel w)) = messages (state w).
Proof. unfold handleCancel. now repeat split. Qed.

(** C7.  [handleNewAnalysis] leaves every cell at its initial value,
    whatever the state before: no Turn, no live and no historical timeline
    entry, no error, no streaming text or metadata, nothing in flight. *)
Theorem new_analysis_resets (w : World) :
  state (handleNewAnalysis w) = initialState
  /\ messages (state (handleNewAnalysis w)) = []
  /\ processedEventsTimeline (state (handleNewAnalysis w)) = []
  /\ historicalActivities (state (handleNewAnalysis w)) = ∅
  /\ error (state (handleNewAnalysis w)) = None
  /\ currentStreamingMessage (state (handleNewAnalysis w)) = ""
  /\ streamingMetadata (state (handleNewAnalysis w)) = emptyMetadata
  /\ isLoading (state (handleNewAnalysis w)) = false.
Proof. unfold handleNewAnalysis. now repeat split. Qed.

(** What a submission that passes the guard does to the cells. *)
Lemma submit_state (clock : nat -> Z) (text effort : string) (w : World) :
  whitespace_only text = false ->
  state (handleSubmit_sync clock text effort w) =
    mkState
      (messages (state w) ++ [Message.mk human text (pretty (clock (ticks w))) None])
      true [] (historicalActivities (state w)) None "" emptyMetadata
  /\ ticks (handleSubmit_sync clock text effort w) = S (ticks w).
Proof.
  intros H. unfold handleSubmit_sync. rewrite blank_guard, H.
  unfold Date_now. cbv zeta. cbv beta iota.
  match goal with |- context [schedule ?i ?l ?x] =>
    destruct (state_schedule i l x) as (-> & -> & _) end.
  now split.
Qed.

(** C8.  A submission of white space only (the empty string included)
    changes nothing; any other submission appends one user Turn holding
    the submitted string, empties the streaming text and metadata and the
    error, and sets the in-flight flag.  The Turns already there stay as
    they are. *)
Theorem submit_effect (clock : nat -> Z) (text effort : string) (w : World) :
  (whitespace_only text = true -> handleSubmit_sync clock text effort w = w)
  /\ (whitespace_only text = false ->
      messages (state (handleSubmit_sync clock text effort w)) =
        messages (state w)
          ++ [Message.mk human text (pretty (clock (ticks w))) None]
      /\ currentStreamingMessage (state (handleSubmit_sync clock text effort w)) = ""
      /\ streamingMetadata (state (handleSubmit_sync clock text effort w)) = emptyMetadata
      /\ error (state (handleSubmit_sync clock text effort w)) = None
      /\ isLoading (state (handleSubmit_sync clock text effort w)) = true).
Proof.
  split; intros H.
  - unfold handleSubmit_sync. now rewrite blank_guard, H.
  - destruct (submit_state clock text effort w H) as [-> _]. now repeat split.
Qed.

Lemma submit_effect_witness :
  handleSubmit_sync Sample.clock "  " "general" Sample.submitted = Sample.submitted
  /\ messages (state (handleSubmit_sync Sample.clock "Add login" "general" Sample.submitted)) =
       [Message.mk human "Build a todo app" "1000" None;
        Message.mk human "Add login" "1005" None].
Proof.
  split.
  - apply (submit_effect Sample.clock "  " "general" Sample.submitted). reflexivity.
  - apply (submit_effect Sample.clock "Add login" "general" Sample.submitted). reflexivity.
Defined.

(** ** Events *)

Lemma error_event (clock : nat -> Z) (c : Closure) (text : string) (w : World) :
  handleStreamEvent clock c (StreamEvent.mk "error" text) w =
    update (setError (Some text)) w.
Proof. reflexivity. Qed.

(** The Turn a [complete] event creates is built from the constants of the
    callback's render, not from the cells. *)
Lemma complete_event (clock : nat -> Z) (c : Closure) (content : string) (w : World) :
  handleStreamEvent clock c (StreamEvent.mk "complete" content) w =
    let aiMessage :=
      Message.mk ai
        (or_else (seen_currentStreamingMessage c) "Analysis completed")
        (pretty (clock (ticks w) + 1)%Z)
        (Some (with_derived_fields (seen_streamingMetadata c))) in
    mkWorld
      (mkState (messages (state w) ++ [aiMessage]) (isLoading (state w))
         (processedEventsTimeline (state w))
         (<[Message.id aiMessage := seen_processedEventsTimeline c]>
            (historicalActivities (state w)))
         (error (state w)) (currentStreamingMessage (state w))
         (streamingMetadata (state w)))
      (timers w) (console w) (parsed w) (S (ticks w)).
Proof. reflexivity. Qed.

(** The Turn of [complete] does not depend on the cells: two worlds with
    the same Turns and the same clock get the same Turn from a callback,
    whatever their streaming text and metadata are. *)
Lemma complete_ignores_cells (clock : nat -> Z) (c : Closure) (content : string)
    (w1 w2 : World) :
  messages (state w1) = messages (state w2) ->
  ticks w1 = ticks w2 ->
  messages (state (handleStreamEvent clock c (StreamEvent.mk "complete" content) w1)) =
    messages (state (handleStreamEvent clock c (StreamEvent.mk "complete" content) w2)).
Proof. intros Hm Ht. rewrite !complete_event. cbn. now rewrite Hm, Ht. Qed.

(** The read loop leaves the in-flight flag alone; the [finally] block of
    [handleSubmit] clears it, however the request ends. *)
Lemma await_clears_in_flight (clock : nat -> Z)
    (JSON_parse : string -> option StreamEvent.t) (dstate : Type) (dinit : dstate)
    (decode_byte : dstate -> Byte.byte -> string * dstate)
    (c : Closure) (result : FetchResult) (w : World) :
  isLoading (state (handleSubmit_await clock JSON_parse dstate dinit decode_byte
                      c result w)) = false.
Proof. reflexivity. Qed.

(** C4, as the code has it.  Folding an [error] event sets the session
    error to the payload and leaves the list of Turns as it was; the fold
    does not touch the in-flight flag, which is cleared when the request
    ends (end of stream or failure of the transport). *)
Theorem error_event_sets_error (clock : nat -> Z)
    (JSON_parse : string -> option StreamEvent.t) (dstate : Type) (dinit : dstate)
    (decode_byte : dstate -> Byte.byte -> string * dstate)
    (c : Closure) (text : string) (w : World) (result : FetchResult) :
  error (state (handleStreamEvent clock c (StreamEvent.mk "error" text) w)) = Some text
  /\ messages (state (handleStreamEvent clock c (StreamEvent.mk "error" text) w)) =
       messages (state w)
  /\ isLoading (state (handleStreamEvent clock c (StreamEvent.mk "error" text) w)) =
       isLoading (state w)
  /\ isLoading (state (handleSubmit_await clock JSON_parse dstate dinit decode_byte
                         c result w)) = false.
Proof. rewrite error_event. now repeat split. Qed.

(** C4 as stated fails: with a request in flight, the fold of an [error]
    event leaves the in-flight flag set. *)
Lemma error_event_keeps_in_flight :
  isLoading (state Sample.submitted) = true
  /\ isLoading (state (handleStreamEvent Sample.clock firstRender
                         (StreamEvent.mk "error" "rate limited")
                         Sample.submitted)) <> false.
Proof. split; [reflexivity | discriminate]. Qed.


(** The scenario of an upstream error: the response carries one [error]
    frame and ends.  The error is shown, no assistant Turn exists, and
    the flag is down once the request is over. *)
Example error_scenario :
  error (state (Sample.request [Sample.frame "error" "rate limited"])) =
    Some "rate limited"
  /\ messages (state (Sample.request [Sample.frame "error" "rate limited"])) =
       [Message.mk human "Build a todo app" "1000" None]
  /\ isLoading (state (Sample.request [Sample.frame "error" "rate limited"])) = false.
Proof. vm_compute. now repeat split. Qed.

(** The same at the level of frames: an [error] frame and a [complete]
    frame in one response. *)
Example error_then_complete :
  let w := Sample.request [Sample.frame "error" "rate limited";
                           Sample.frame "complete" ""] in
  error (state w) = Some "rate limited"
  /\ map Message.type (messages (state w)) = [human; ai]
  /\ isLoading (state w) = false.
Proof. vm_compute. now repeat split. Qed.

(** ** The timeline simulator *)

Lemma fire_appends (w : World) (k delay : nat) (entry : ProcessedEvent) :
  timers w !! k = Some (delay, entry) ->
  processedEventsTimeline (state (fire k w)) =
    processedEventsTimeline (state w) ++ [entry]
  /\ timers (fire k w) = delete k (timers w).
Proof. intros H. unfold fire. rewrite H. now split. Qed.

(** A submission that passes the guard queues the seven stage entries,
    one second apart. *)
Lemma submit_schedules (clock : nat -> Z) (text effort : string) (w : World) :
  whitespace_only text = false ->
  timers (handleSubmit_sync clock text effort w) =
    timers w ++ imap (fun j e => (j * 1000, e)) timelineEvents.
Proof.
  intros H. unfold handleSubmit_sync. rewrite blank_guard, H.
  unfold Date_now. cbv zeta. cbv beta iota.
  match goal with |- context [schedule ?i ?l ?x] =>
    destruct (state_schedule i l x) as (_ & _ & ->) end.
  reflexivity.
Qed.

(** C5, as the code has it.  [handleCancel] and [handleNewAnalysis] empty
    the live timeline and leave the queue of scheduled entries alone, and a
    scheduled entry is appended to the live timeline when its callback
    runs, whatever happened to the session since it was scheduled. *)
Theorem scheduled_entry_outlives_cancel (w : World) (k delay : nat)
    (entry : ProcessedEvent) :
  timers w !! k = Some (delay, entry) ->
  timers (handleCancel w) !! k = Some (delay, entry)
  /\ timers (handleNewAnalysis w) !! k = Some (delay, entry)
  /\ processedEventsTimeline (state (fire k (handleCancel w))) = [entry]
  /\ processedEventsTimeline (state (fire k (handleNewAnalysis w))) = [entry]
  /\ processedEventsTimeline (state (fire k w)) =
       processedEventsTimeline (state w) ++ [entry].
Proof.
  intros H.
  assert (Hc : timers (handleCancel w) !! k = Some (delay, entry)) by exact H.
  assert (Hn : timers (handleNewAnalysis w) !! k = Some (delay, entry)) by exact H.
  repeat split; try assumption.
  - now destruct (fire_appends _ _ _ _ Hc) as [-> _].
  - now destruct (fire_appends _ _ _ _ Hn) as [-> _].
  - now destruct (fire_appends _ _ _ _ H) as [-> _].
Qed.

Lemma scheduled_entry_outlives_cancel_witness :
  timers Sample.submitted !! 1 =
    Some (1000, mkProcessedEvent "Domain Expert Analysis"
                  "Analyzing business logic and domain-specific requirements...")
  /\ processedEventsTimeline (state (fire 1 (handleCancel Sample.submitted))) =
       [mkProcessedEvent "Domain Expert Analysis"
          "Analyzing business logic and domain-specific requirements..."].
Proof.
  split; [reflexivity|].
  apply (scheduled_entry_outlives_cancel Sample.submitted 1 1000). reflexivity.
Defined.

(** C5 as stated fails: a request is submitted, its first entry is shown,
    the request is cancelled before the second entry is due, and the
    second entry is appended to the live timeline all the same. *)
Lemma cancelled_request_entry_appended :
  processedEventsTimeline (state (handleCancel (fire 0 Sample.submitted))) = []
  /\ processedEventsTimeline
       (state (fire 0 (handleCancel (fire 0 Sample.submitted)))) =
       [mkProcessedEvent "Domain Expert Analysis"
          "Analyzing business logic and domain-specific requirements..."].
Proof. split; reflexivity. Qed.

(** ** Turn ids *)

Lemma turn_ids_submit (clock : nat -> Z) (text effort : string) (w : World) :
  whitespace_only text = false ->
  turn_ids (handleSubmit_sync clock text effort w) =
    turn_ids w ++ [pretty (clock (ticks w))].
Proof.
  intros H. unfold turn_ids.
  destruct (submit_state clock text effort w H) as [-> _].
  cbn [messages]. now rewrite map_app.
Qed.

Lemma ids_below_clock_push (clock : nat -> Z) (w w' : World) (z : Z) :
  (forall n, (clock n + 1 < clock (S n))%Z) ->
  ids_below_clock clock w ->
  (clock (ticks w) <= z <= clock (ticks w) + 1)%Z ->
  turn_ids w' = turn_ids w ++ [pretty z] ->
  ticks w' = S (ticks w) ->
  ids_below_clock clock w'.
Proof.
  intros Hgap [Hnd Hlt] Hz Hids Hticks. unfold ids_below_clock.
  rewrite Hids, Hticks. specialize (Hgap (ticks w)). split.
  - apply NoDup_app. split; [exact Hnd|]. split; [|apply NoDup_singleton].
    intros i Hi Hin. apply list_elem_of_singleton in Hin. subst i.
    destruct (Hlt _ Hi) as (z' & Heq & Hz').
    apply (inj pretty) in Heq. lia.
  - intros i Hi. apply elem_of_app in Hi as [Hi|Hi].
    + destruct (Hlt _ Hi) as (z' & -> & Hz'). exists z'. split; [reflexivity|lia].
    + apply list_elem_of_singleton in Hi. subst i. exists z. split; [reflexivity|lia].
Qed.

Lemma ids_below_clock_step (clock : nat -> Z) (op : Operation) (w : World) :
  (forall n, (clock n + 1 < clock (S n))%Z) ->
  ids_below_clock clock w ->
  ids_below_clock clock (apply_operation clock op w).
Proof.
  intros Hgap Hw. destruct op as [text effort|content]; cbn [apply_operation].
  - destruct (whitespace_only text) eqn:Hb.
    + unfold handleSubmit_sync. now rewrite blank_guard, Hb.
    + apply (ids_below_clock_push clock w _ (clock (ticks w))); auto; [lia| |].
      * now apply turn_ids_submit.
      * now destruct (submit_state clock text effort w Hb) as [_ ->].
  - rewrite complete_event.
    apply (ids_below_clock_push clock w _ (clock (ticks w) + 1)%Z); auto; [lia| ].
    unfold turn_ids. cbn [state messages]. now rewrite map_app.
Qed.

(** C9, as the code has it.  The ids are readings of the clock (plus one
    for an assistant Turn): when each reading exceeds the one before it by
    two milliseconds or more, the ids of the Turns created by any sequence
    of submissions and [complete] events are pairwise distinct. *)
Theorem turn_ids_distinct (clock : nat -> Z) (ops : list Operation) :
  (forall n, (clock n + 1 < clock (S n))%Z) ->
  NoDup (turn_ids (run_operations clock ops initialWorld)).
Proof.
  intros Hgap.
  assert (H : forall w, ids_below_clock clock w ->
                        ids_below_clock clock (run_operations clock ops w)).
  { induction ops as [|op ops IH]; intros w Hw; [exact Hw|].
    apply IH. now apply ids_below_clock_step. }
  apply H. split; [apply NoDup_nil_2|].
  intros i Hi. now apply elem_of_nil in Hi.
Qed.

Lemma turn_ids_distinct_witness :
  NoDup (turn_ids (run_operations Sample.clock
                     [op_submit "Build a todo app" "general"; op_complete "";
                      op_submit "Add login" "general"; op_complete ""]
                     initialWorld)).
Proof.
  apply (turn_ids_distinct Sample.clock).
  intros n. unfold Sample.clock, Sample.clock_from. lia.
Defined.

(** C9 as stated fails: two [complete] events folded within the same
    millisecond give their Turns the same id. *)
Lemma same_millisecond_same_id :
  turn_ids (run_operations Sample.coarse_clock
              [op_submit "Build a todo app" "general"; op_complete "";
               op_complete ""]
              initialWorld) = ["1000"; "1501"; "1501"]
  /\ ~ NoDup (turn_ids (run_operations Sample.coarse_clock
                          [op_submit "Build a todo app" "general"; op_complete "";
                           op_complete ""]
                          initialWorld)).
Proof.
  assert (E : turn_ids (run_operations Sample.coarse_clock
              [op_submit "Build a todo app" "general"; op_complete "";
               op_complete ""]
              initialWorld) = ["1000"; "1501"; "1501"]) by (vm_compute; reflexivity).
  split; [exact E|]. rewrite E. intros H.
  apply NoDup_cons in H as [_ H]. apply NoDup_cons in H as [H _].
  apply H. now left.
Qed.

(** ** Dropped lines *)

Section DroppedLines.

Variable clock : nat -> Z.
Variable JSON_parse : string -> option StreamEvent.t.

Local Abbreviation line_body := (process_line clock JSON_parse).

Lemma same_session_refl (w : World) : same_session w w.
Proof. now repeat split. Qed.

Lemma same_session_note (payload : string) (w : World) :
  same_session (note_parse payload w) w.
Proof. now repeat split. Qed.

Lemma same_session_warn (line : string) (w : World) :
  same_session (console_warn line w) w.
Proof. now repeat split. Qed.

Lemma same_session_trans (w1 w2 w3 : World) :
  same_session w1 w2 -> same_session w2 w3 -> same_session w1 w3.
Proof. intros (? & ? & ?) (? & ? & ?). repeat split; congruence. Qed.

(** No handler reads the console or the record of parser calls. *)
Lemma handleStreamEvent_same_session (c : Closure) (event : StreamEvent.t)
    (w1 w2 : World) :
  same_session w1 w2 ->
  same_session (handleStreamEvent clock c event w1)
               (handleStreamEvent clock c event w2).
Proof.
  destruct w1 as [s1 t1 c1 p1 n1], w2 as [s2 t2 c2 p2 n2].
  intros (Hs & Ht & Hn). cbn [state timers ticks] in *. subst s2 t2 n2.
  unfold handleStreamEvent.
  repeat match goal with
         | |- context [String.eqb ?a ?b] => destruct (String.eqb a b)
         end; now repeat split.
Qed.

Lemma process_line_same_session (c : Closure) (line : string) (w1 w2 : World) :
  same_session w1 w2 ->
  same_session (line_body c line w1) (line_body c line w2).
Proof.
  intros H. unfold process_line.
  destruct (startsWith "data: " line); [|exact H].
  assert (H' : same_session (note_parse (slice 6 line) w1)
                            (note_parse (slice 6 line) w2)).
  { destruct H as (? & ? & ?). now repeat split. }
  destruct (JSON_parse (slice 6 line)).
  - now apply handleStreamEvent_same_session.
  - destruct H' as (? & ? & ?). now repeat split.
Qed.

Lemma for_each_same_session (c : Closure) (lines : list string) (w1 w2 : World) :
  same_session w1 w2 ->
  same_session (for_each (line_body c) lines w1) (for_each (line_body c) lines w2).
Proof.
  revert w1 w2. induction lines as [|l lines IH]; intros w1 w2 H; [exact H|].
  apply IH. now apply process_line_same_session.
Qed.

(** A line without the marker changes nothing at all. *)
Lemma unmarked_line (c : Closure) (line : string) (w : World) :
  startsWith "data: " line = false -> line_body c line w = w.
Proof. intros H. unfold process_line. now rewrite H. Qed.

(** A marked line that does not decode is reported and dropped. *)
Lemma undecodable_line (c : Closure) (line : string) (w : World) :
  startsWith "data: " line = true ->
  JSON_parse (slice 6 line) = None ->
  line_body c line w =
    console_warn ("Failed to parse SSE event: " +:+ line)
      (note_parse (slice 6 line) w).
Proof. intros H1 H2. unfold process_line. now rewrite H1, H2. Qed.

(** C3.  A line that does not begin with ["data: "] is skipped without a
    call of the parser and without a diagnostic; a marked line whose
    payload does not decode costs one call of the parser and one
    diagnostic.  Either way the session state is as before, and the
    lines after it are processed as if the dropped line had not been
    there. *)
Theorem dropped_line_is_harmless (c : Closure) (line : string)
    (rest : list string) (w : World) :
  startsWith "data: " line = false \/ JSON_parse (slice 6 line) = None ->
  state (line_body c line w) = state w
  /\ (startsWith "data: " line = false ->
      parsed (line_body c line w) = parsed w
      /\ console (line_body c line w) = console w)
  /\ (startsWith "data: " line = true ->
      parsed (line_body c line w) = parsed w ++ [slice 6 line]
      /\ console (line_body c line w) =
           console w ++ ["Failed to parse SSE event: " +:+ line])
  /\ same_session (for_each (line_body c) (line :: rest) w)
                  (for_each (line_body c) rest w).
Proof.
  intros H.
  assert (Hs : same_session (line_body c line w) w).
  { destruct (startsWith "data: " line) eqn:Hm.
    - destruct H as [H|H]; [discriminate|].
      rewrite undecodable_line by assumption.
      eapply same_session_trans; [apply same_session_warn|apply same_session_note].
    - rewrite unmarked_line by assumption. apply same_session_refl. }
  split; [apply Hs|]. split; [|split].
  - intros Hm. now rewrite unmarked_line.
  - intros Hm. destruct H as [H|H]; [congruence|].
    now rewrite undecodable_line.
  - cbn [for_each fold_left]. now apply for_each_same_session.
Qed.

End DroppedLines.

Lemma dropped_line_is_harmless_witness :
  state (for_each (process_line Sample.clock Sample.JSON_parse firstRender)
           ["not-a-data-line"; Sample.line "message" "hi"] Sample.submitted) =
    setCurrentStreamingMessage (fun _ => "hi") (state Sample.submitted)
  /\ parsed (process_line Sample.clock Sample.JSON_parse firstRender
               "not-a-data-line" Sample.submitted) = [].
Proof.
  destruct (dropped_line_is_harmless Sample.clock Sample.JSON_parse firstRender
              "not-a-data-line" [Sample.line "message" "hi"] Sample.submitted)
    as (_ & Hp & _ & (Hs & _)); [left; reflexivity|].
  split; [rewrite Hs; reflexivity | now apply Hp].
Defined.

(** ** The frame decoder *)

Section FrameDecoder.

Variable clock : nat -> Z.
Variable JSON_parse : string -> option StreamEvent.t.
Variable dstate : Type.
Variable dinit : dstate.
Variable decode_byte : dstate -> Byte.byte -> string * dstate.

Local Abbreviation line_body := (process_line clock JSON_parse).
Local Abbreviation loop := (read_loop clock JSON_parse dstate decode_byte).
Local Abbreviation await :=
  (handleSubmit_await clock JSON_parse dstate dinit decode_byte).
Local Abbreviation text_of := (decoded dstate decode_byte dinit).

Lemma read_loop_world (c : Closure) (values : list (list Byte.byte)) (w : World) :
  snd (loop c values (newReader dstate dinit, w)) =
    for_each (line_body c) (complete_lines (text_of (concat values))) w.
Proof. now rewrite read_loop_lines. Qed.

(** A response that is read to its end. *)
Lemma await_read_to_end (c : Closure) (status : N)
    (values : list (list Byte.byte)) (w : World) :
  ok status = true ->
  await c (Responded status (Some (mkByteSource values None))) w =
    update (setIsLoading false)
      (for_each (line_body c) (complete_lines (text_of (concat values))) w).
Proof.
  intros H. unfold handleSubmit_await. rewrite H. cbn [negb chunks failure].
  now rewrite read_loop_world.
Qed.

End FrameDecoder.

(** The frame of [message "hi"] arriving in two chunks is parsed once,
    when its terminator arrives, and handled as one event. *)
Example frame_split_across_chunks :
  parsed (snd (read_chunk Sample.clock Sample.JSON_parse unit Sample.decode_byte
                 firstRender (Sample.bytes Sample.first_half)
                 (newReader unit tt, Sample.submitted))) = []
  /\ parsed (snd (read_loop Sample.clock Sample.JSON_parse unit Sample.decode_byte
                    firstRender
                    [Sample.bytes Sample.first_half; Sample.bytes Sample.second_half]
                    (newReader unit tt, Sample.submitted))) =
       [slice 6 (Sample.line "message" "hi")]
  /\ Sample.JSON_parse (slice 6 (Sample.line "message" "hi")) =
       Some (StreamEvent.mk "message" "hi")
  /\ currentStreamingMessage
       (state (snd (read_loop Sample.clock Sample.JSON_parse unit Sample.decode_byte
                      firstRender
                      [Sample.bytes Sample.first_half; Sample.bytes Sample.second_half]
                      (newReader unit tt, Sample.submitted)))) = "hi".
Proof. vm_compute. now repeat split. Qed.

(** ** Analysis sections and the Turn of [complete] *)

Section Sections.

Variable clock : nat -> Z.

Local Abbreviation fold_events c := (for_each (handleStreamEvent clock c)).

Lemma section_event_step (c : Closure) (e : SectionTag * string) (w : World) :
  handleStreamEvent clock c (section_event e) w =
    update (setCurrentStreamingMessage (fun prev => prev +:+ block e))
      (update (setStreamingMetadata (store (fst e) (snd e))) w).
Proof. destruct e as [[] p]; reflexivity. Qed.

Lemma stored_store (t t' : SectionTag) (p : string) (m : Metadata) :
  stored t (store t' p m) = if tag_eqb t t' then Some p else stored t m.
Proof. destruct t, t'; reflexivity. Qed.

(** The cells after a run of section events: one block per event, in the
    order of arrival, appended to the streaming text; under each tag the
    payload of its last event; everything else as before.  The constants
    [c] of the callback play no part. *)
Lemma sections_accrue (c : Closure) (es : list (SectionTag * string)) (w : World) :
  currentStreamingMessage (state (fold_events c (map section_event es) w)) =
    currentStreamingMessage (state w) +:+ blocks es
  /\ (forall t : SectionTag,
        stored t (streamingMetadata (state (fold_events c (map section_event es) w))) =
          match last_payload t es with
          | Some p => Some p
          | None => stored t (streamingMetadata (state w))
          end)
  /\ messages (state (fold_events c (map section_event es) w)) = messages (state w)
  /\ ticks (fold_events c (map section_event es) w) = ticks w.
Proof.
  revert w. induction es as [|e es IH]; intros w.
  - cbn. rewrite append_empty_r. now repeat split.
  - change (map section_event (e :: es)) with (section_event e :: map section_event es).
    rewrite for_each_cons, section_event_step.
    destruct (IH (update (setCurrentStreamingMessage (fun prev => prev +:+ block e))
                    (update (setStreamingMetadata (store (fst e) (snd e))) w)))
      as (Ht & Hm & Hl & Hk).
    rewrite Ht, Hl, Hk.
    cbn [update state currentStreamingMessage setCurrentStreamingMessage
         setStreamingMetadata messages ticks blocks fold_right].
    rewrite append_assoc. repeat split.
    intros t. rewrite Hm. destruct e as [t' p]. cbn [last_payload].
    destruct (last_payload t es); [reflexivity|].
    cbn [update state streamingMetadata setCurrentStreamingMessage
         setStreamingMetadata fst snd].
    rewrite stored_store. now destruct (tag_eqb t t').
Qed.

(** What the component would do if the callback that handles [complete]
    were the one of a render at the current state: the Turn holds the
    accrued text (or the fallback when it is empty) and, under each tag,
    the payload of its last event. *)
Lemma complete_of_current_render (c : Closure) (es : list (SectionTag * string))
    (content : string) (w : World) :
  currentStreamingMessage (state w) = "" ->
  streamingMetadata (state w) = emptyMetadata ->
  exists (i : string) (m : Metadata),
    messages (state (handleStreamEvent clock
                       (render (state (fold_events c (map section_event es) w)))
                       (StreamEvent.mk "complete" content)
                       (fold_events c (map section_event es) w))) =
      messages (state w)
        ++ [Message.mk ai (or_else (blocks es) "Analysis completed") i (Some m)]
    /\ forall t : SectionTag, stored t m = last_payload t es.
Proof.
  intros Ht Hm. rewrite complete_event. cbv zeta.
  destruct (sections_accrue c es w) as (Ht' & Hm' & Hl' & _).
  cbn [state messages render seen_currentStreamingMessage seen_streamingMetadata].
  rewrite Ht', Hl', Ht. eexists _, _. split; [reflexivity|].
  intros t.
  transitivity (stored t (streamingMetadata
                            (state (fold_events c (map section_event es) w)))).
  { now destruct t. }
  rewrite Hm', Hm. now destruct (last_payload t es), t.
Qed.

(** What it does: the stream is handled by the callback of the first
    render, so the Turn of [complete] has the fallback text and none of
    the payloads, whatever the section events before it accrued in the
    cells. *)
Lemma complete_of_first_render (es : list (SectionTag * string))
    (content : string) (w : World) :
  messages (state (fold_events firstRender
                     (map section_event es ++ [StreamEvent.mk "complete" content]) w)) =
    messages (state w)
      ++ [Message.mk ai "Analysis completed" (pretty (clock (ticks w) + 1)%Z)
            (Some (with_derived_fields emptyMetadata))]
  /\ currentStreamingMessage
       (state (fold_events firstRender
                 (map section_event es ++ [StreamEvent.mk "complete" content]) w)) =
       currentStreamingMessage (state w) +:+ blocks es.
Proof.
  rewrite for_each_app, for_each_cons. cbn [for_each fold_left].
  rewrite complete_event.
  destruct (sections_accrue firstRender es w) as (Ht & _ & Hl & Hk).
  cbv zeta. cbn [state messages currentStreamingMessage].
  rewrite Ht, Hl, Hk. now split.
Qed.

End Sections.

(** C1 on the code.  A request whose response carries the section
    [domain_expert "Needs CRUD"] and then [complete]: the streaming cells
    hold the labeled block and the payload, the assistant Turn holds the
    fallback text and no payload, and the historical entry filed under
    its id is empty. *)
Theorem complete_turn_misses_accrual :
  currentStreamingMessage (state (Sample.request Sample.one_section)) =
    block (domain_expert, "Needs CRUD")
  /\ domain_analysis (streamingMetadata (state (Sample.request Sample.one_section))) =
       Some "Needs CRUD"
  /\ messages (state (Sample.request Sample.one_section)) =
       [Message.mk human "Build a todo app" "1000" None;
        Message.mk ai "Analysis completed" "1006"
          (Some (with_derived_fields emptyMetadata))]
  /\ historicalActivities (state (Sample.request Sample.one_section)) !! "1006" = Some [].
Proof. vm_compute. now repeat split. Qed.

(** * Further properties of the handlers *)

(** ** What an event can touch *)

Lemma message_event (clock : nat -> Z) (c : Closure) (text : string) (w : World) :
  handleStreamEvent clock c (StreamEvent.mk "message" text) w =
    update (setCurrentStreamingMessage (fun _ => text)) w.
Proof. reflexivity. Qed.

Lemma is_complete_event (event : StreamEvent.t) :
  is_complete event = true ->
  event = StreamEvent.mk "complete" (StreamEvent.content event).
Proof.
  destruct event as [ty content]. unfold is_complete. cbn.
  intros H. apply String.eqb_eq in H. now subst.
Qed.

(** An event other than [complete] leaves the Turns, the historical map,
    the clock, the flag, the live timeline and the surroundings alone. *)
Lemma other_event_keeps (clock : nat -> Z) (c : Closure) (event : StreamEvent.t)
    (w : World) :
  is_complete event = false ->
  messages (state (handleStreamEvent clock c event w)) = messages (state w)
  /\ historicalActivities (state (handleStreamEvent clock c event w)) =
       historicalActivities (state w)
  /\ isLoading (state (handleStreamEvent clock c event w)) = isLoading (state w)
  /\ processedEventsTimeline (state (handleStreamEvent clock c event w)) =
       processedEventsTimeline (state w)
  /\ timers (handleStreamEvent clock c event w) = timers w
  /\ console (handleStreamEvent clock c event w) = console w
  /\ parsed (handleStreamEvent clock c event w) = parsed w
  /\ ticks (handleStreamEvent clock c event w) = ticks w.
Proof.
  destruct event as [ty content]. unfold is_complete, handleStreamEvent.
  cbn [StreamEvent.type StreamEvent.content].
  repeat match goal with
         | |- context [String.eqb ty ?l] => destruct (String.eqb_spec ty l)
         end; subst; try discriminate; intros _; now repeat split.
Qed.

(** X5.  No event changes the in-flight flag, the live timeline, the
    pending timers, the console or the record of parser calls.  An event
    other than [complete] also leaves the Turns, the historical map and the
    clock alone; a [complete] leaves the error, the streaming text and the
    streaming metadata alone and reads the clock once. *)
Theorem event_footprint (clock : nat -> Z) (c : Closure) (event : StreamEvent.t)
    (w : World) :
  isLoading (state (handleStreamEvent clock c event w)) = isLoading (state w)
  /\ processedEventsTimeline (state (handleStreamEvent clock c event w)) =
       processedEventsTimeline (state w)
  /\ timers (handleStreamEvent clock c event w) = timers w
  /\ console (handleStreamEvent clock c event w) = console w
  /\ parsed (handleStreamEvent clock c event w) = parsed w
  /\ (is_complete event = false ->
      messages (state (handleStreamEvent clock c event w)) = messages (state w)
      /\ historicalActivities (state (handleStreamEvent clock c event w)) =
           historicalActivities (state w)
      /\ ticks (handleStreamEvent clock c event w) = ticks w)
  /\ (is_complete event = true ->
      error (state (handleStreamEvent clock c event w)) = error (state w)
      /\ currentStreamingMessage (state (handleStreamEvent clock c event w)) =
           currentStreamingMessage (state w)
      /\ streamingMetadata (state (handleStreamEvent clock c event w)) =
           streamingMetadata (state w)
      /\ ticks (handleStreamEvent clock c event w) = S (ticks w)).
Proof.
  destruct (is_complete event) eqn:E.
  - rewrite (is_complete_event event E), complete_event.
    repeat split; discriminate.
  - destruct (other_event_keeps clock c event w E)
      as (Hm & Hh & Hl & Hp & Ht & Hc & Hq & Hk).
    repeat split; try assumption; discriminate.
Qed.

Lemma event_footprint_witness :
  messages (state (handleStreamEvent Sample.clock firstRender
                     (StreamEvent.mk "final_answer" "Ship it") Sample.submitted)) =
    messages (state Sample.submitted)
  /\ error (state (handleStreamEvent Sample.clock firstRender
                     (StreamEvent.mk "complete" "") Sample.submitted)) =
       error (state Sample.submitted).
Proof.
  split.
  - apply (event_footprint Sample.clock firstRender
             (StreamEvent.mk "final_answer" "Ship it") Sample.submitted).
    reflexivity.
  - apply (event_footprint Sample.clock firstRender
             (StreamEvent.mk "complete" "") Sample.submitted).
    reflexivity.
Defined.

(** X4.  An event whose [type] has no [case] (the comparison is exact, so
    a known name in other letter case included) changes nothing. *)
Theorem unknown_event_ignored (clock : nat -> Z) (c : Closure)
    (event : StreamEvent.t) (w : World) :
  ~ In (StreamEvent.type event) event_types ->
  handleStreamEvent clock c event w = w.
Proof.
  destruct event as [ty content]. unfold handleStreamEvent, event_types.
  cbn [StreamEvent.type StreamEvent.content]. intros H.
  repeat match goal with
         | |- context [String.eqb ty ?l] =>
             destruct (String.eqb_spec ty l);
             [exfalso; apply H; subst ty; cbn; tauto|]
         end.
  reflexivity.
Qed.

Lemma unknown_event_ignored_witness :
  handleStreamEvent Sample.clock firstRender
    (StreamEvent.mk "Complete" "done") Sample.submitted = Sample.submitted.
Proof.
  apply unknown_event_ignored. cbn.
  intros H. repeat (destruct H as [H|H]; [discriminate|]). exact H.
Defined.

(** X3.  A [message] event replaces the streaming text whatever the events
    before it left there, and the sections after it append their blocks to
    the replacement; the metadata is not touched by a [message]. *)
Theorem message_replaces_text (clock : nat -> Z) (c : Closure)
    (before : list StreamEvent.t) (text : string)
    (es : list (SectionTag * string)) (w : World) :
  currentStreamingMessage
    (state (for_each (handleStreamEvent clock c)
              (before ++ StreamEvent.mk "message" text :: map section_event es) w)) =
    text +:+ blocks es
  /\ forall t : SectionTag,
       stored t (streamingMetadata
                   (state (for_each (handleStreamEvent clock c)
                             (before ++ StreamEvent.mk "message" text
                                :: map section_event es) w))) =
         match last_payload t es with
         | Some p => Some p
         | None =>
             stored t (streamingMetadata
                         (state (for_each (handleStreamEvent clock c) before w)))
         end.
Proof.
  rewrite for_each_app, for_each_cons, message_event.
  set (w1 := for_each _ before w).
  destruct (sections_accrue clock c es
              (update (setCurrentStreamingMessage (fun _ => text)) w1))
    as (Ht & Hm & _ & _).
  split; [exact Ht | exact Hm].
Qed.

(** X6.  A run of events appends one assistant Turn per [complete] event
    and nothing else to the list of Turns: the Turns before it stay, in
    place and unchanged, and every new Turn is built from the constants of
    the callback.  The clock is read once per [complete]. *)
Theorem turns_grow_by_completes (clock : nat -> Z) (c : Closure)
    (events : list StreamEvent.t) (w : World) :
  exists new : list Message.t,
    messages (state (for_each (handleStreamEvent clock c) events w)) =
      messages (state w) ++ new
    /\ length new = count_complete events
    /\ Forall (fun m =>
                 Message.type m = ai
                 /\ Message.content m =
                      or_else (seen_currentStreamingMessage c) "Analysis completed"
                 /\ Message.metadata m =
                      Some (with_derived_fields (seen_streamingMetadata c))) new
    /\ ticks (for_each (handleStreamEvent clock c) events w) =
         ticks w + count_complete events.
Proof.
  revert w. induction events as [|e events IH]; intros w.
  - exists []. cbn. rewrite app_nil_r. repeat split; [constructor | lia].
  - rewrite for_each_cons.
    destruct (IH (handleStreamEvent clock c e w)) as (new & Hm & Hl & Hf & Hk).
    unfold count_complete in *. cbn [List.filter].
    destruct (is_complete e) eqn:E.
    + assert (Hw : messages (state (handleStreamEvent clock c e w)) =
                     messages (state w)
                       ++ [Message.mk ai
                             (or_else (seen_currentStreamingMessage c) "Analysis completed")
                             (pretty (clock (ticks w) + 1)%Z)
                             (Some (with_derived_fields (seen_streamingMetadata c)))]
                   /\ ticks (handleStreamEvent clock c e w) = S (ticks w)).
      { rewrite (is_complete_event e E), complete_event. now split. }
      destruct Hw as [Hm' Hk'].
      eexists (_ :: new). rewrite Hm, Hm', <- app_assoc. split; [reflexivity|].
      cbn [length]. rewrite Hl, Hk, Hk'. split; [reflexivity|].
      split; [|lia]. constructor; [now repeat split | exact Hf].
    + destruct (other_event_keeps clock c e w E) as (Hm' & _ & _ & _ & _ & _ & _ & Hk').
      exists new. rewrite Hm, Hm', Hk, Hk'. now repeat split.
Qed.

(** ** Calls of the parser and diagnostics *)

Lemma event_keeps_surroundings (clock : nat -> Z) (c : Closure)
    (event : StreamEvent.t) (w : World) :
  timers (handleStreamEvent clock c event w) = timers w
  /\ console (handleStreamEvent clock c event w) = console w
  /\ parsed (handleStreamEvent clock c event w) = parsed w.
Proof.
  destruct (is_complete event) eqn:E.
  - rewrite (is_complete_event event E), complete_event. now repeat split.
  - destruct (other_event_keeps clock c event w E) as (_ & _ & _ & _ & ? & ? & ? & _).
    now repeat split.
Qed.

Lemma join_lines_app (xs ys : list string) (rest : string) :
  join_lines (xs ++ ys) rest = join_lines xs (join_lines ys rest).
Proof. unfold join_lines. apply fold_right_app. Qed.

Lemma join_complete_partial (text : string) :
  join_lines (complete_lines text) (partial_line text) = text.
Proof.
  induction text as [|c text IH]; [reflexivity|].
  destruct (Ascii.eqb c "010") eqn:Hc.
  - apply Ascii.eqb_eq in Hc; subst c.
    destruct (lines_newline text) as [-> ->].
    cbn [join_lines fold_right]. fold (join_lines (complete_lines text) (partial_line text)).
    now rewrite IH.
  - destruct (lines_char c text Hc) as [-> ->].
    destruct (complete_lines text) as [|h l].
    + cbn in *. now rewrite IH.
    + cbn [join_lines fold_right] in *. rewrite append_cons. now rewrite IH.
Qed.

Lemma complete_lines_no_newline (text : string) :
  Forall (fun l => no_newline l = true) (complete_lines text).
Proof.
  induction text as [|c text IH]; [constructor|].
  destruct (Ascii.eqb c "010") eqn:Hc.
  - apply Ascii.eqb_eq in Hc; subst c.
    destruct (lines_newline text) as [-> _]. now constructor.
  - destruct (lines_char c text Hc) as [-> _].
    destruct (complete_lines text) as [|h l]; [constructor|].
    inversion IH; subst. constructor; [|assumption].
    cbn. now rewrite Hc.
Qed.

Section Traces.

Variable clock : nat -> Z.
Variable JSON_parse : string -> option StreamEvent.t.
Variable dstate : Type.
Variable dinit : dstate.
Variable decode_byte : dstate -> Byte.byte -> string * dstate.

Local Abbreviation line_body := (process_line clock JSON_parse).
Local Abbreviation loop := (read_loop clock JSON_parse dstate decode_byte).
Local Abbreviation await :=
  (handleSubmit_await clock JSON_parse dstate dinit decode_byte).
Local Abbreviation text_of := (decoded dstate decode_byte dinit).
Local Abbreviation warning l := ("Failed to parse SSE event: " +:+ l).

Lemma process_line_trace (c : Closure) (line : string) (w : World) :
  parsed (line_body c line w) = parsed w ++ payloads [line]
  /\ console (line_body c line w) =
       console w ++ map (fun l => warning l) (undecodable JSON_parse [line])
  /\ timers (line_body c line w) = timers w.
Proof.
  unfold process_line, payloads, undecodable. cbn [List.filter].
  destruct (startsWith "data: " line); cbn [andb map].
  - destruct (JSON_parse (slice 6 line)) as [event|]; cbn [map].
    + destruct (event_keeps_surroundings clock c event (note_parse (slice 6 line) w))
        as (-> & -> & ->).
      cbn. now rewrite app_nil_r.
    + now repeat split.
  - now rewrite !app_nil_r.
Qed.

(** X7.  Over any run of lines the parser is called once for each line
    that begins with ["data: "], in the order of the lines, with the text
    after the marker; one diagnostic is written for each of those calls
    that fails and none for any other line.  The lines the read loop runs
    over are the complete lines of the text received. *)
Theorem parser_trace (c : Closure) (lines : list string)
    (values : list (list Byte.byte)) (w : World) :
  parsed (for_each (line_body c) lines w) = parsed w ++ payloads lines
  /\ console (for_each (line_body c) lines w) =
       console w ++ map (fun l => warning l) (undecodable JSON_parse lines)
  /\ parsed (snd (loop c values (newReader dstate dinit, w))) =
       parsed w ++ payloads (complete_lines (text_of (concat values))).
Proof.
  assert (H : forall ls w0,
             parsed (for_each (line_body c) ls w0) = parsed w0 ++ payloads ls
             /\ console (for_each (line_body c) ls w0) =
                  console w0 ++ map (fun l => warning l) (undecodable JSON_parse ls)).
  { induction ls as [|l ls IH]; intros w0.
    - cbn. now rewrite !app_nil_r.
    - rewrite for_each_cons.
      destruct (IH (line_body c l w0)) as [-> ->].
      destruct (process_line_trace c l w0) as (-> & -> & _).
      rewrite <- !app_assoc. split; f_equal.
      + unfold payloads. cbn [List.filter].
        destruct (startsWith "data: " l); reflexivity.
      + unfold undecodable. cbn [List.filter].
        destruct (startsWith "data: " l && _); reflexivity. }
  destruct (H lines w) as [-> ->]. repeat split.
  rewrite read_loop_world. apply H.
Qed.

(** X8.  The read loop loses and invents no character: after any chunks,
    the lines it has handed on, each followed by a line terminator, and
    then the buffer, spell the text received.  No line handed on and no
    buffer ever contains a line terminator. *)
Theorem decoder_loses_nothing (c : Closure) (values : list (list Byte.byte))
    (w : World) :
  join_lines (complete_lines (text_of (concat values)))
    (buffer dstate (fst (loop c values (newReader dstate dinit, w)))) =
    text_of (concat values)
  /\ no_newline (buffer dstate (fst (loop c values (newReader dstate dinit, w)))) = true
  /\ Forall (fun l => no_newline l = true) (complete_lines (text_of (concat values))).
Proof.
  rewrite read_loop_lines by reflexivity. cbn [fst buffer newReader].
  change ("" +:+ ?x) with x.
  split; [apply join_complete_partial|].
  split; [apply partial_line_no_newline | apply complete_lines_no_newline].
Qed.

Lemma run_actions_app (acts1 acts2 : list Action) (w : World) :
  run_actions clock JSON_parse (acts1 ++ acts2) w =
    run_actions clock JSON_parse acts2 (run_actions clock JSON_parse acts1 w).
Proof. apply fold_left_app. Qed.

Lemma run_line_actions (c : Closure) (lines : list string) (w : World) :
  run_actions clock JSON_parse (map (do_line c) lines) w =
    for_each (line_body c) lines w.
Proof.
  revert w. induction lines as [|l lines IH]; intros w; [reflexivity|].
  cbn [map]. change (run_actions clock JSON_parse (do_line c l :: ?a) w)
    with (run_actions clock JSON_parse a (line_body c l w)).
  now rewrite IH.
Qed.

(** X2.  After its first [await] a submission is this sequence of steps:
    one line step for each complete line of the text received, in order;
    then the [catch] step if the request was rejected, answered with a
    status outside 200-299, answered without a body, or cut by a failing
    read (the lines received before the failure are handled first); then
    the [finally] step. *)
Theorem await_as_actions (c : Closure) (result : FetchResult) (w : World) :
  await c result w =
    run_actions clock JSON_parse (await_actions dstate dinit decode_byte c result) w.
Proof.
  unfold handleSubmit_await, await_actions. rewrite run_actions_app.
  destruct result as [err|status [source|]]; try reflexivity.
  - destruct (ok status); cbn [negb]; [|reflexivity].
    rewrite read_loop_world, run_actions_app, run_line_actions.
    now destruct (failure source).
  - now destruct (ok status).
Qed.

(** X1.  A request that fails before a byte is read (the fetch is
    rejected, the status is outside 200-299, or the response has no body)
    sets the error to the message of the failure, clears the in-flight
    flag and changes nothing else in the session: no Turn is added, the
    streaming cells stay, and the parser is never called. *)
Theorem transport_failure (c : Closure) (w : World) :
  (forall message : string,
      state (await c (Rejected (ErrorObject message)) w) =
        setIsLoading false (setError (Some message) (state w))
      /\ parsed (await c (Rejected (ErrorObject message)) w) = parsed w)
  /\ (state (await c (Rejected OtherValue) w) =
        setIsLoading false (setError (Some "An error occurred") (state w))
      /\ parsed (await c (Rejected OtherValue) w) = parsed w)
  /\ (forall (status : N) (body : option ByteSource),
        ok status = false ->
        state (await c (Responded status body) w) =
          setIsLoading false
            (setError (Some ("HTTP error! status: " +:+ pretty status)) (state w))
        /\ parsed (await c (Responded status body) w) = parsed w)
  /\ (forall status : N,
        ok status = true ->
        state (await c (Responded status None) w) =
          setIsLoading false
            (setError (Some "No response body reader available") (state w))
        /\ parsed (await c (Responded status None) w) = parsed w).
Proof.
  repeat split.
  - unfold handleSubmit_await. now rewrite H.
  - unfold handleSubmit_await. now rewrite H.
  - unfold handleSubmit_await. now rewrite H.
  - unfold handleSubmit_await. now rewrite H.
Qed.

End Traces.

Lemma transport_failure_witness :
  error (state (handleSubmit_await Sample.clock Sample.JSON_parse unit tt
                  Sample.decode_byte firstRender
                  (Responded 503 (Some (mkByteSource
                     [Sample.bytes (Sample.frame "complete" "")] None)))
                  Sample.submitted)) = Some "HTTP error! status: 503"
  /\ messages (state (handleSubmit_await Sample.clock Sample.JSON_parse unit tt
                        Sample.decode_byte firstRender
                        (Responded 204 None) Sample.submitted)) =
       messages (state Sample.submitted).
Proof.
  destruct (transport_failure Sample.clock Sample.JSON_parse unit tt
              Sample.decode_byte firstRender Sample.submitted) as (_ & _ & H3 & H4).
  split.
  - destruct (H3 503%N (Some (mkByteSource
                 [Sample.bytes (Sample.frame "complete" "")] None))) as [-> _];
      reflexivity.
  - destruct (H4 204%N) as [-> _]; reflexivity.
Defined.

(** ** Invariants of a session *)

Section Invariants.

Variable clock : nat -> Z.
Variable JSON_parse : string -> option StreamEvent.t.

Local Abbreviation run := (run_actions clock JSON_parse).

Lemma run_cons (a : Action) (acts : list Action) (w : World) :
  run (a :: acts) w = run acts (perform clock JSON_parse a w).
Proof. reflexivity. Qed.

Lemma event_turns_change (c : Closure) (event : StreamEvent.t) (w w0 : World) :
  state w0 = state w -> ticks w0 = ticks w ->
  TurnsChange clock w (handleStreamEvent clock c event w0).
Proof.
  intros Hs Hk. destruct (is_complete event) eqn:E.
  - rewrite (is_complete_event event E), complete_event. cbv zeta.
    apply (turns_assistant clock w _ c); cbn [state messages historicalActivities ticks];
      now rewrite ?Hs, ?Hk.
  - destruct (other_event_keeps clock c event w0 E) as (Hm & Hh & _ & _ & _ & _ & _ & Ht).
    apply turns_kept; congruence.
Qed.

(** Every step changes the Turns in one of the four ways. *)
Lemma perform_turns_change (a : Action) (w : World) :
  TurnsChange clock w (perform clock JSON_parse a w).
Proof.
  destruct a as [text effort|c line|err| | | |k]; cbn [perform].
  - destruct (whitespace_only text) eqn:Hb.
    + unfold handleSubmit_sync. rewrite blank_guard, Hb. now apply turns_kept.
    + destruct (submit_state clock text effort w Hb) as [Hs Hk].
      apply (turns_user clock w _ text); [assumption| | |assumption]; now rewrite Hs.
  - unfold process_line. destruct (startsWith "data: " line); [|now apply turns_kept].
    destruct (JSON_parse (slice 6 line)) as [event|].
    + now apply event_turns_change.
    + now apply turns_kept.
  - now apply turns_kept.
  - now apply turns_kept.
  - now apply turns_kept.
  - now apply turns_emptied.
  - unfold fire. destruct (timers w !! k) as [[d e]|]; now apply turns_kept.
Qed.

Lemma or_else_fallback (s : string) : or_else s "Analysis completed" <> "".
Proof. unfold or_else. destruct s; discriminate. Qed.

Lemma ai_ids_app (w w' : World) (m : Message.t) :
  messages (state w') = messages (state w) ++ [m] ->
  ai_ids w' = ai_ids w ++ (if is_ai m then [Message.id m] else [])
  /\ human_ids w' = human_ids w ++ (if is_ai m then [] else [Message.id m]).
Proof.
  intros H. unfold ai_ids, human_ids. rewrite H, !List.filter_app, !map_app.
  cbn [List.filter]. now destruct (is_ai m).
Qed.

Lemma well_formed_step (a : Action) (w : World) :
  Forall well_formed_turn (messages (state w)) ->
  Forall well_formed_turn (messages (state (perform clock JSON_parse a w))).
Proof.
  intros H.
  destruct (perform_turns_change a w) as [Hm _ _|Hm _ _|text Hb Hm _ _|c Hm _ _];
    rewrite Hm; [assumption|constructor| |].
  - apply Forall_app. split; [assumption|].
    constructor; [|constructor]. now split.
  - apply Forall_app. split; [assumption|].
    constructor; [|constructor]. split; [apply or_else_fallback|].
    eexists. now repeat split.
Qed.

Lemma history_keyed_step (a : Action) (w : World) :
  history_keyed_by_turns w ->
  history_keyed_by_turns (perform clock JSON_parse a w).
Proof.
  intros H k Hk.
  destruct (perform_turns_change a w) as [Hm Hh _|Hm Hh _|text Hb Hm Hh _|c Hm Hh _].
  - unfold ai_ids. rewrite Hm. apply H. now rewrite <- Hh.
  - rewrite Hh, lookup_empty in Hk. now destruct Hk.
  - destruct (ai_ids_app _ _ _ Hm) as [-> _]. cbn. rewrite app_nil_r.
    apply H. now rewrite <- Hh.
  - destruct (ai_ids_app _ _ _ Hm) as [-> _]. cbn [is_ai Message.type Message.id].
    apply in_or_app. rewrite Hh in Hk.
    destruct (decide (pretty (clock (ticks w) + 1)%Z = k)) as [->|Hne].
    + right. now left.
    + left. apply H. now rewrite lookup_insert_ne in Hk.
Qed.

(** X9.  Whatever the user and the server do, in whatever order (steps of
    submissions, lines handled by the callback of any render, failures,
    cancellations, resets, timer callbacks), every Turn of the list is well
    formed: a user Turn holds a text that is not blank and no metadata; an
    assistant Turn holds a text that is not empty, with [processing_time]
    0 and [query_type] ["general"]. *)
Theorem reachable_turns_well_formed (acts : list Action) :
  Forall well_formed_turn (messages (state (run acts initialWorld))).
Proof.
  assert (H : forall w, Forall well_formed_turn (messages (state w)) ->
                        Forall well_formed_turn (messages (state (run acts w)))).
  { induction acts as [|a acts IH]; intros w Hw; [exact Hw|].
    rewrite run_cons. apply IH. now apply well_formed_step. }
  apply H. constructor.
Qed.

(** X10.  In every session reached by such steps, each key of the
    historical map is the id of an assistant Turn that is in the list:
    entries are filed only by [complete], together with the Turn, and a
    reset removes both. *)
Theorem reachable_history_keyed (acts : list Action) :
  history_keyed_by_turns (run acts initialWorld).
Proof.
  assert (H : forall w, history_keyed_by_turns w -> history_keyed_by_turns (run acts w)).
  { induction acts as [|a acts IH]; intros w Hw; [exact Hw|].
    rewrite run_cons. apply IH. now apply history_keyed_step. }
  apply H. intros k Hk. cbn in Hk. rewrite lookup_empty in Hk. now destruct Hk.
Qed.

Lemma role_ids_step (a : Action) (w : World) :
  (forall n, (clock n < clock (S n))%Z) ->
  role_ids_below_clock clock w ->
  role_ids_below_clock clock (perform clock JSON_parse a w).
Proof.
  intros Hinc (Hnh & Hna & Hh & Ha). specialize (Hinc (ticks w)).
  unfold role_ids_below_clock.
  destruct (perform_turns_change a w) as [Hm _ Hk|Hm _ Hk|text Hb Hm _ Hk|c Hm _ Hk].
  - unfold human_ids, ai_ids in *. rewrite Hm, Hk. now repeat split.
  - unfold human_ids, ai_ids. rewrite Hm. cbn.
    repeat split; try apply NoDup_nil_2; intros i Hi; now apply elem_of_nil in Hi.
  - destruct (ai_ids_app _ _ _ Hm) as [-> ->]. cbn [is_ai Message.type Message.id].
    rewrite app_nil_r, Hk. repeat split; [|assumption| |].
    + apply NoDup_app. split; [assumption|]. split; [|apply NoDup_singleton].
      intros i Hi Hin. apply list_elem_of_singleton in Hin. subst i.
      destruct (Hh _ Hi) as (z & Heq & Hz). apply (inj pretty) in Heq. lia.
    + intros i Hi. apply elem_of_app in Hi as [Hi|Hi].
      * destruct (Hh _ Hi) as (z & -> & Hz). exists z. split; [reflexivity|lia].
      * apply list_elem_of_singleton in Hi. subst i. eexists. split; [reflexivity|lia].
    + intros i Hi. destruct (Ha _ Hi) as (z & -> & Hz). exists z. split; [reflexivity|lia].
  - destruct (ai_ids_app _ _ _ Hm) as [-> ->]. cbn [is_ai Message.type Message.id].
    rewrite app_nil_r, Hk. repeat split; [assumption| | |].
    + apply NoDup_app. split; [assumption|]. split; [|apply NoDup_singleton].
      intros i Hi Hin. apply list_elem_of_singleton in Hin. subst i.
      destruct (Ha _ Hi) as (z & Heq & Hz). apply (inj pretty) in Heq. lia.
    + intros i Hi. destruct (Hh _ Hi) as (z & -> & Hz). exists z. split; [reflexivity|lia].
    + intros i Hi. apply elem_of_app in Hi as [Hi|Hi].
      * destruct (Ha _ Hi) as (z & -> & Hz). exists z. split; [reflexivity|lia].
      * apply list_elem_of_singleton in Hi. subst i. eexists. split; [reflexivity|lia].
Qed.

(** X13.  When every reading of the clock is later than the one before,
    however little, no two user Turns of a session share an id and no two
    assistant Turns do: an id can only repeat across the two roles. *)
Theorem role_ids_distinct (acts : list Action) :
  (forall n, (clock n < clock (S n))%Z) ->
  NoDup (human_ids (run acts initialWorld))
  /\ NoDup (ai_ids (run acts initialWorld)).
Proof.
  intros Hinc.
  assert (H : forall w, role_ids_below_clock clock w ->
                        role_ids_below_clock clock (run acts w)).
  { induction acts as [|a acts IH]; intros w Hw; [exact Hw|].
    rewrite run_cons. apply IH. now apply role_ids_step. }
  destruct (H initialWorld) as (? & ? & _); [|now split].
  repeat split; try apply NoDup_nil_2; intros i Hi; now apply elem_of_nil in Hi.
Qed.

End Invariants.

Lemma role_ids_distinct_witness :
  NoDup (human_ids (run_actions (Sample.clock_from 1000 1) Sample.JSON_parse
                      [do_submit "Build a todo app" "general";
                       do_line firstRender (Sample.line "complete" "");
                       do_submit "Add login" "general";
                       do_line firstRender (Sample.line "complete" "")]
                      initialWorld))
  /\ NoDup (ai_ids (run_actions (Sample.clock_from 1000 1) Sample.JSON_parse
                      [do_submit "Build a todo app" "general";
                       do_line firstRender (Sample.line "complete" "");
                       do_submit "Add login" "general";
                       do_line firstRender (Sample.line "complete" "")]
                      initialWorld)).
Proof.
  apply (role_ids_distinct (Sample.clock_from 1000 1)).
  intros n. unfold Sample.clock_from. lia.
Defined.

(** ** The stage entries of a request *)

Lemma fire_head_prefix (n : nat) (w : World) :
  processedEventsTimeline (state (fire_head n w)) =
    processedEventsTimeline (state w) ++ map snd (take n (timers w))
  /\ timers (fire_head n w) = drop n (timers w)
  /\ messages (state (fire_head n w)) = messages (state w)
  /\ isLoading (state (fire_head n w)) = isLoading (state w).
Proof.
  revert w. induction n as [|n IH]; intros w; cbn [fire_head].
  - cbn. now rewrite app_nil_r.
  - destruct (IH (fire 0 w)) as (-> & -> & -> & ->). unfold fire.
    destruct (timers w) as [|[d e] l] eqn:Ht; cbn.
    + rewrite Ht. cbn. rewrite take_nil, drop_nil. now repeat split.
    + rewrite <- app_assoc. now repeat split.
Qed.

(** X11.  A submission that passes the guard, made while no timer is
    pending, queues seven callbacks with the delays 0, 1000, ..., 6000;
    as they run in that order the live timeline is, after the first [n] of
    them, the first [n] stage entries, and after all seven the whole list,
    with no callback left. *)
Theorem stage_entries_in_order (clock : nat -> Z) (text effort : string)
    (n : nat) (w : World) :
  whitespace_only text = false ->
  timers w = [] ->
  map fst (timers (handleSubmit_sync clock text effort w)) =
    map (fun j => j * 1000) (seq 0 7)
  /\ processedEventsTimeline
       (state (fire_head n (handleSubmit_sync clock text effort w))) =
       take n timelineEvents
  /\ processedEventsTimeline
       (state (fire_head 7 (handleSubmit_sync clock text effort w))) = timelineEvents
  /\ timers (fire_head 7 (handleSubmit_sync clock text effort w)) = [].
Proof.
  intros Hb Ht.
  assert (Hq : timers (handleSubmit_sync clock text effort w) =
               imap (fun j e => (j * 1000, e)) timelineEvents).
  { now rewrite (submit_schedules clock text effort w Hb), Ht. }
  assert (Hl : processedEventsTimeline (state (handleSubmit_sync clock text effort w)) = []).
  { now destruct (submit_state clock text effort w Hb) as [-> _]. }
  split; [now rewrite Hq|].
  split; [|split].
  - destruct (fire_head_prefix n (handleSubmit_sync clock text effort w)) as (-> & _).
    rewrite Hl, Hq. cbn [app].
    do 8 (destruct n as [|n]; [reflexivity|]). reflexivity.
  - destruct (fire_head_prefix 7 (handleSubmit_sync clock text effort w)) as (-> & _).
    now rewrite Hl, Hq.
  - destruct (fire_head_prefix 7 (handleSubmit_sync clock text effort w)) as (_ & -> & _).
    now rewrite Hq.
Qed.

Lemma stage_entries_in_order_witness :
  map title (processedEventsTimeline (state (fire_head 2 Sample.submitted))) =
    ["Query Classification"; "Domain Expert Analysis"].
Proof.
  destruct (stage_entries_in_order Sample.clock "Build a todo app" "general" 2
              initialWorld) as (_ & H & _); [reflexivity..|].
  unfold Sample.submitted. now rewrite H.
Defined.

(** ** Which screen is shown *)

(** X12.  The welcome screen is shown exactly while the list of Turns is
    empty: at the start, after every reset, and even when an [error] event
    of a stream still running arrives after the reset.  A submission that
    passes the guard always leads to the chat view.  Once there is a Turn,
    an [error] event with a text that is not empty leads to the error
    screen with that text, one with an empty text does not, and a
    cancellation leads back to the chat view. *)
Theorem view_transitions (clock : nat -> Z) (c : Closure) (text effort : string)
    (w : World) :
  view initialState = WelcomeScreen
  /\ (view (state w) = WelcomeScreen <-> messages (state w) = [])
  /\ view (state (handleNewAnalysis w)) = WelcomeScreen
  /\ view (state (handleStreamEvent clock c (StreamEvent.mk "error" text)
                    (handleNewAnalysis w))) = WelcomeScreen
  /\ (whitespace_only text = false ->
      view (state (handleSubmit_sync clock text effort w)) = ChatMessagesView)
  /\ (messages (state w) <> [] ->
      view (state (handleStreamEvent clock c (StreamEvent.mk "error" text) w)) =
        (if truthy text then ErrorScreen text else ChatMessagesView)
      /\ view (state (handleCancel w)) = ChatMessagesView).
Proof.
  split; [reflexivity|]. split; [|split; [reflexivity|split; [reflexivity|split]]].
  - unfold view. destruct (messages (state w)); [tauto|].
    split; [|discriminate]. destruct (error (state w)) as [e|]; [|discriminate].
    destruct (truthy e); discriminate.
  - intros Hb. destruct (submit_state clock text effort w Hb) as [-> _].
    unfold view. cbn [messages error]. now destruct (messages (state w)).
  - intros Hm. rewrite error_event. unfold view. cbn.
    destruct (messages (state w)); [contradiction|]. now split.
Qed.

Lemma view_transitions_witness :
  view (state (handleSubmit_sync Sample.clock "Build a todo app" "general"
                 initialWorld)) = ChatMessagesView
  /\ view (state (handleStreamEvent Sample.clock firstRender
                    (StreamEvent.mk "error" "rate limited") Sample.submitted)) =
       ErrorScreen "rate limited".
Proof.
  split.
  - apply (view_transitions Sample.clock firstRender "Build a todo app" "general"
             initialWorld). reflexivity.
  - apply (view_transitions Sample.clock firstRender "rate limited" "general"
             Sample.submitted). discriminate.
Defined.

(** ** Whole requests *)

Section Requests.

Variable clock : nat -> Z.
Variable JSON_parse : string -> option StreamEvent.t.
Variable dstate : Type.
Variable dinit : dstate.
Variable decode_byte : dstate -> Byte.byte -> string * dstate.

Local Abbreviation line_body := (process_line clock JSON_parse).
Local Abbreviation submit_all :=
  (handleSubmit clock JSON_parse dstate dinit decode_byte).
Local Abbreviation await :=
  (handleSubmit_await clock JSON_parse dstate dinit decode_byte).




(** The cells right after a failure that is caught before any byte is
    read. *)
Lemma view_after_catch (message : string) (w : World) :
  truthy message = true ->
  view (setIsLoading false (setError (Some message) (state w))) =
    match messages (state w) with
    | [] => WelcomeScreen
    | _ :: _ => ErrorScreen message
    end.
Proof. intros H. unfold view. cbn. rewrite H. now destruct (messages (state w)). Qed.

(** X15.  When a response arrives with a status outside 200-299, or
    without a body, the error is set to the message of the failure and the
    in-flight flag is cleared in one uninterrupted run; what is shown then
    depends on the Turns of that moment: the error screen with the message
    if there is a Turn, the welcome screen (the error set but not shown)
    if a reset has emptied the list since the submission.  When nothing
    runs between a submission that passes the guard and the response, the
    user Turn is there and the error screen is shown. *)
Theorem failed_response_view (c : Closure) (text effort : string) (status : N)
    (body : option ByteSource) (w : World) :
  (ok status = false ->
   error (state (await c (Responded status body) w)) =
     Some ("HTTP error! status: " +:+ pretty status)
   /\ view (state (await c (Responded status body) w)) =
        match messages (state w) with
        | [] => WelcomeScreen
        | _ :: _ => ErrorScreen ("HTTP error! status: " +:+ pretty status)
        end
   /\ (whitespace_only text = false ->
       view (state (submit_all text effort (Responded status body) w)) =
         ErrorScreen ("HTTP error! status: " +:+ pretty status)))
  /\ (ok status = true ->
      error (state (await c (Responded status None) w)) =
        Some "No response body reader available"
      /\ view (state (await c (Responded status None) w)) =
           match messages (state w) with
           | [] => WelcomeScreen
           | _ :: _ => ErrorScreen "No response body reader available"
           end
      /\ (whitespace_only text = false ->
          view (state (submit_all text effort (Responded status None) w)) =
            ErrorScreen "No response body reader available")).
Proof.
  assert (Hsub : forall message result,
             truthy message = true ->
             whitespace_only text = false ->
             (forall w0, state (await firstRender result w0) =
                           setIsLoading false (setError (Some message) (state w0))) ->
             view (state (submit_all text effort result w)) = ErrorScreen message).
  { intros message result Ht Hb Hr. unfold handleSubmit. rewrite blank_guard, Hb.
    cbn [negb]. rewrite Hr, (view_after_catch message _ Ht).
    destruct (submit_state clock text effort w Hb) as [-> _]. cbn [messages].
    now destruct (messages (state w)). }
  split; intros Hok.
  - assert (Hr : forall c0 w0, state (await c0 (Responded status body) w0) =
                   setIsLoading false
                     (setError (Some ("HTTP error! status: " +:+ pretty status)) (state w0))).
    { intros c0 w0. unfold handleSubmit_await. now rewrite Hok. }
    split; [now rewrite Hr|]. split.
    + rewrite Hr. now apply view_after_catch.
    + intros Hb. apply Hsub; [reflexivity|assumption|apply Hr].
  - assert (Hr : forall c0 w0, state (await c0 (Responded status None) w0) =
                   setIsLoading false
                     (setError (Some "No response body reader available") (state w0))).
    { intros c0 w0. unfold handleSubmit_await. now rewrite Hok. }
    split; [now rewrite Hr|]. split.
    + rewrite Hr. now apply view_after_catch.
    + intros Hb. apply Hsub; [reflexivity|assumption|apply Hr].
Qed.

End Requests.


Lemma failed_response_view_witness :
  view (state (handleSubmit_await Sample.clock Sample.JSON_parse unit tt
                 Sample.decode_byte firstRender (Responded 500 None)
                 (handleNewAnalysis Sample.submitted))) = WelcomeScreen
  /\ view (state (handleSubmit Sample.clock Sample.JSON_parse unit tt
                    Sample.decode_byte "Build a todo app" "general"
                    (Responded 500 None) initialWorld)) =
       ErrorScreen "HTTP error! status: 500".
Proof.
  split.
  - destruct (failed_response_view Sample.clock Sample.JSON_parse unit tt
                Sample.decode_byte firstRender "Build a todo app" "general"
                500%N None (handleNewAnalysis Sample.submitted)) as [H _].
    destruct H as (_ & -> & _); reflexivity.
  - destruct (failed_response_view Sample.clock Sample.JSON_parse unit tt
                Sample.decode_byte firstRender "Build a todo app" "general"
                500%N None initialWorld) as [H _].
    destruct H as (_ & _ & ->); reflexivity.
Defined.

(** ** The frame decoder against the protocol *)

Lemma no_newline_snoc (current : string) (c : ascii) :
  no_newline current = true -> Ascii.eqb c "010" = false ->
  no_newline (current +:+ String c "") = true.
Proof.
  intros Hn Hc. induction current as [|x current IH].
  - change (no_newline (String c "") = true). cbn. now rewrite Hc.
  - rewrite append_cons. cbn in *. apply andb_prop in Hn as [-> Hn]. now apply IH.
Qed.

(** A line without terminator, then a terminator: the line is complete
    and the rest starts afresh. *)
Lemma lines_after_terminator (current text : string) :
  no_newline current = true ->
  complete_lines (current +:+ String "010" text) = current :: complete_lines text
  /\ partial_line (current +:+ String "010" text) = partial_line text.
Proof.
  intros Hn. induction current as [|x current IH].
  - change ("" +:+ ?t) with t. apply lines_newline.
  - cbn in Hn. apply andb_prop in Hn as [Hx Hn].
    apply Bool.negb_true_iff in Hx. rewrite append_cons.
    destruct (lines_char x (current +:+ String "010" text) Hx) as [-> ->].
    destruct (IH Hn) as [-> ->]. now split.
Qed.

(** What the loop cuts with [split] and [pop] is what the protocol calls
    the lines and the rest of a text. *)
Lemma split_pop_scans (current text : string) :
  no_newline current = true ->
  complete_lines (current +:+ text) = scan_lines current text
  /\ partial_line (current +:+ text) = scan_rest current text.
Proof.
  revert current. induction text as [|c text IH]; intros current Hn.
  - rewrite append_empty_r. cbn. now apply lines_no_newline.
  - cbn [scan_lines scan_rest]. destruct (Ascii.eqb c "010") eqn:Hc.
    + apply Ascii.eqb_eq in Hc; subst c.
      destruct (lines_after_terminator current text Hn) as [-> ->].
      destruct (IH "" eq_refl) as [H1 H2].
      change ("" +:+ text) with text in H1, H2. now rewrite H1, H2.
    + replace (current +:+ String c text)
        with ((current +:+ String c "") +:+ text)
        by (now rewrite append_assoc).
      apply IH. now apply no_newline_snoc.
Qed.

Lemma complete_lines_terminated (text : string) :
  complete_lines text = terminated_lines text
  /\ partial_line text = unterminated_rest text.
Proof. apply (split_pop_scans "" text eq_refl). Qed.

Section Protocol.

Variable clock : nat -> Z.
Variable JSON_parse : string -> option StreamEvent.t.
Variable dstate : Type.
Variable dinit : dstate.
Variable decode_byte : dstate -> Byte.byte -> string * dstate.

Local Abbreviation line_body := (process_line clock JSON_parse).
Local Abbreviation loop := (read_loop clock JSON_parse dstate decode_byte).
Local Abbreviation await :=
  (handleSubmit_await clock JSON_parse dstate dinit decode_byte).
Local Abbreviation text_of := (decoded dstate decode_byte dinit).
Local Abbreviation start := (newReader dstate dinit).

(** Handling lines is handling their events: the session is the one the
    callback leaves when it is given the events of the lines, one by
    one. *)
Lemma lines_as_events (c : Closure) (lines : list string) (w1 w2 : World) :
  same_session w1 w2 ->
  same_session (for_each (line_body c) lines w1)
    (for_each (handleStreamEvent clock c) (events_of JSON_parse lines) w2).
Proof.
  revert w1 w2. induction lines as [|l lines IH]; intros w1 w2 H; [exact H|].
  rewrite for_each_cons. cbn [events_of]. unfold process_line at 2.
  destruct (startsWith "data: " l); [|now apply IH].
  destruct (JSON_parse (slice 6 l)) as [event|].
  - rewrite for_each_cons. apply IH.
    apply handleStreamEvent_same_session.
    eapply same_session_trans; [apply same_session_note|exact H].
  - apply IH.
    eapply same_session_trans; [apply same_session_warn|].
    eapply same_session_trans; [apply same_session_note|exact H].
Qed.

Lemma lines_parsed (c : Closure) (lines : list string) (w : World) :
  parsed (for_each (line_body c) lines w) = parsed w ++ payloads lines.
Proof.
  revert w. induction lines as [|l lines IH]; intros w.
  - cbn. now rewrite app_nil_r.
  - rewrite for_each_cons, IH.
    destruct (process_line_trace clock JSON_parse c l w) as (-> & _).
    rewrite <- app_assoc. f_equal. unfold payloads. cbn [List.filter].
    now destruct (startsWith "data: " l).
Qed.

(** C2.  However the bytes are cut into chunks, the read loop leaves the
    session that the callback leaves when it is given, in order, the
    events of the terminated lines of the whole text: the parser is called
    once for each marked terminated line and for nothing else, a line cut
    by a chunk boundary is put together again, and a frame arriving in
    pieces is parsed once, when its terminator has arrived, and handled as
    one event.  The buffer holds the unterminated rest of the text, and
    when the stream ends that rest is dropped: a stream whose text goes on
    with an unterminated rest leaves the same world as the stream without
    it. *)
Theorem frame_decoder_reassembles (c : Closure) (values : list (list Byte.byte))
    (w : World) :
  same_session (snd (loop c values (start, w)))
    (for_each (handleStreamEvent clock c)
       (events_of JSON_parse (terminated_lines (text_of (concat values)))) w)
  /\ parsed (snd (loop c values (start, w))) =
       parsed w ++ payloads (terminated_lines (text_of (concat values)))
  /\ buffer dstate (fst (loop c values (start, w))) =
       unterminated_rest (text_of (concat values))
  /\ (forall values2 : list (list Byte.byte),
        concat values = concat values2 ->
        loop c values (start, w) = loop c values2 (start, w))
  /\ (forall (line : string) (event : StreamEvent.t),
        no_newline line = true ->
        startsWith "data: " line = true ->
        JSON_parse (slice 6 line) = Some event ->
        text_of (concat values) = line +:+ nl ->
        snd (loop c values (start, w)) =
          handleStreamEvent clock c event (note_parse (slice 6 line) w))
  /\ (forall (values' : list (list Byte.byte)) (rest : string) (status : N),
        ok status = true ->
        text_of (concat values') = text_of (concat values) +:+ rest ->
        no_newline rest = true ->
        await c (Responded status (Some (mkByteSource values' None))) w =
          await c (Responded status (Some (mkByteSource values None))) w).
Proof.
  destruct (complete_lines_terminated (text_of (concat values))) as [Hl Hr].
  repeat split.
  - rewrite read_loop_world, Hl. apply lines_as_events, same_session_refl.
  - rewrite read_loop_world, Hl.
    destruct (lines_as_events c (terminated_lines (text_of (concat values))) w w
                (same_session_refl w)) as (_ & H & _). exact H.
  - rewrite read_loop_world, Hl.
    destruct (lines_as_events c (terminated_lines (text_of (concat values))) w w
                (same_session_refl w)) as (_ & _ & H). exact H.
  - rewrite read_loop_world, Hl. apply lines_parsed.
  - rewrite read_loop_lines by reflexivity. cbn [fst buffer newReader].
    change ("" +:+ ?x) with x. exact Hr.
  - intros values2 H. rewrite !read_loop_lines by reflexivity. now rewrite H.
  - intros line event Hn Hm Hp Ht.
    rewrite read_loop_world, Ht. unfold nl.
    destruct (lines_after_terminator line "" Hn) as [-> _].
    rewrite for_each_cons. change (complete_lines "") with (@nil string).
    unfold process_line. now rewrite Hm, Hp.
  - intros values' rest status Hok Ht Hn.
    rewrite !await_read_to_end by assumption.
    now rewrite Ht, lines_unterminated_tail.
Qed.

End Protocol.

Lemma frame_decoder_reassembles_witness :
  snd (read_loop Sample.clock Sample.JSON_parse unit Sample.decode_byte firstRender
         [Sample.bytes Sample.first_half; Sample.bytes Sample.second_half]
         (newReader unit tt, Sample.submitted)) =
    handleStreamEvent Sample.clock firstRender (StreamEvent.mk "message" "hi")
      (note_parse (slice 6 (Sample.line "message" "hi")) Sample.submitted)
  /\ read_loop Sample.clock Sample.JSON_parse unit Sample.decode_byte firstRender
       [Sample.bytes Sample.first_half; Sample.bytes Sample.second_half]
       (newReader unit tt, Sample.submitted) =
     read_loop Sample.clock Sample.JSON_parse unit Sample.decode_byte firstRender
       [Sample.bytes (Sample.frame "message" "hi")]
       (newReader unit tt, Sample.submitted)
  /\ handleSubmit_await Sample.clock Sample.JSON_parse unit tt Sample.decode_byte
       firstRender
       (Responded 200 (Some (mkByteSource
          [Sample.bytes (Sample.frame "message" "hi");
           Sample.bytes (Sample.line "message" "lost")] None)))
       Sample.submitted =
     handleSubmit_await Sample.clock Sample.JSON_parse unit tt Sample.decode_byte
       firstRender
       (Responded 200 (Some (mkByteSource
          [Sample.bytes Sample.first_half; Sample.bytes Sample.second_half] None)))
       Sample.submitted.
Proof.
  destruct (frame_decoder_reassembles Sample.clock Sample.JSON_parse unit tt
              Sample.decode_byte firstRender
              [Sample.bytes Sample.first_half; Sample.bytes Sample.second_half]
              Sample.submitted) as (_ & _ & _ & H4 & H5 & H6).
  split; [|split].
  - apply (H5 (Sample.line "message" "hi")); reflexivity.
  - apply H4. reflexivity.
  - apply (H6 _ (Sample.line "message" "lost") 200%N); reflexivity.
Defined.
